(** * Time-windowed batch write buffers of glukit: a shallow embedding

    The two streamers of package [streaming] are embedded here:
    - [CalibrationReadStreamer] (app/streaming/calibrationstreamer.go), a
      mutable fixed-size buffer with grid-aligned windows, and
    - [MealStreamer], a versioned accumulator over an immutable list with
      first-arrival windows.

    Go values are embedded as follows.
    - [time.Time] is the number of nanoseconds since Go's zero time
      (January 1, year 1, 00:00:00 UTC), an integer; [time.Duration] is an
      int64 count of nanoseconds.
    - [int] is a 64-bit integer, embedded in [Z]; wrap-around is written
      out where two arbitrary ints are combined.
    - a slice is a list; slice expressions and indexing panic out of range.
    - a run-time panic is the outcome [Panic].
    - the downstream writer is an interface: a type class over the type of
      the writer's state. Every call made to it is recorded, in order, in
      the [calls] of the world the code runs in. *)

From stdpp Require Import base list sorting.
From Stdlib Require Import ZArith Lia.

Local Open Scope Z_scope.

(** ** Go's machine integers *)

Module goint.

Definition minInt : Z := - 2 ^ 63.
Definition maxInt : Z := 2 ^ 63 - 1.

(** Two's complement wrap-around of a 64-bit signed integer. *)
Definition wrap (z : Z) : Z := (z + 2 ^ 63) mod 2 ^ 64 - 2 ^ 63.

Definition is_int (z : Z) : Prop := minInt <= z <= maxInt.

End goint.

(** ** Package time, as far as the streamers use it *)

Module gotime.

Definition Time : Type := Z.
Definition Duration : Type := Z.

Definition minDuration : Duration := - 2 ^ 63.
Definition maxDuration : Duration := 2 ^ 63 - 1.

Definition Nanosecond : Duration := 1.
Definition Second : Duration := 1000000000.
Definition Minute : Duration := 60 * Second.
Definition Hour : Duration := 60 * Minute.

(** [t.Sub(u)]: the duration t-u, saturated to the int64 range. *)
Definition Sub (t u : Time) : Duration :=
  if maxDuration <? t - u then maxDuration
  else if t - u <? minDuration then minDuration
  else t - u.

(** [t.Truncate(d)]: t rounded down to a multiple of d since the zero
    time; t itself when d <= 0. *)
Definition Truncate (t : Time) (d : Duration) : Time :=
  if d <=? 0 then t else t - t mod d.

End gotime.

(** ** Outcomes: a returned value, or a run-time panic *)

Inductive exec (A : Type) : Type :=
| Done (a : A)
| Panic.
Arguments Done {A} a.
Arguments Panic {A}.

(** A computation over a world of type [S] that may panic. *)
Definition M (S A : Type) : Type := S -> exec (A * S).

Definition ret {S A : Type} (a : A) : M S A := fun w => Done (a, w).

Definition bind {S A B : Type} (m : M S A) (k : A -> M S B) : M S B :=
  fun w => match m w with
           | Done (a, w') => k a w'
           | Panic => Panic
           end.

Definition panic {S A : Type} : M S A := fun _ => Panic.

Notation "'do' x <- m ; k" := (bind m (fun x => k))
  (at level 10, x pattern, m at level 100, k at level 200).

(** ** Slices *)

Module slices.

Section Slices.
Context {A : Type}.

(** [s[lo:hi]] on a slice whose capacity is its length: panics unless
    0 <= lo <= hi <= len(s). *)
Definition in_range (s : list A) (lo hi : Z) : bool :=
  (0 <=? lo) && (lo <=? hi) && (hi <=? Z.of_nat (length s)).

Definition slice {S : Type} (s : list A) (lo hi : Z) : M S (list A) :=
  if in_range s lo hi
  then ret (take (Z.to_nat (hi - lo)) (drop (Z.to_nat lo) s))
  else panic.

(** [copy(s[lo:hi], src)]: the destination aliases [s], so the copy is
    an update of [s]; it transfers min(hi-lo, len(src)) elements and
    returns that number. The source is read as a value first, as Go's
    copy handles overlap. Panics when [s[lo:hi]] does. *)
Definition copy {S : Type} (s : list A) (lo hi : Z) (src : list A)
  : M S (list A * Z) :=
  if in_range s lo hi
  then
    let k := Nat.min (Z.to_nat (hi - lo)) (length src) in
    ret (take (Z.to_nat lo) s ++ take k src ++ drop (Z.to_nat lo + k) s,
         Z.of_nat k)
  else panic.

(** [s[i]] *)
Definition index {S : Type} (s : list A) (i : nat) : M S A :=
  match s !! i with
  | Some x => ret x
  | None => panic
  end.

End Slices.

End slices.

(** ** Package model: timestamped records *)

Module model.

(** Modelled from the spec: package [model], which declares the record
    types, is missing. A record exposes a point in time through [GetTime];
    its content is otherwise opaque to the buffer. *)
Record CalibrationRead : Type := mkCalibrationRead {
  CalibrationRead_time : gotime.Time;
  CalibrationRead_value : Z
}.

Record Meal : Type := mkMeal {
  Meal_time : gotime.Time;
  Meal_carbs : Z
}.

(** Go's zero values, as [make] and [new] produce them. *)
Definition zeroCalibrationRead : CalibrationRead := mkCalibrationRead 0 0.
Definition zeroMeal : Meal := mkMeal 0 0.

Class Timestamped (R : Type) := GetTime : R -> gotime.Time.
#[global] Instance CalibrationRead_Timestamped : Timestamped CalibrationRead :=
  CalibrationRead_time.
#[global] Instance Meal_Timestamped : Timestamped Meal := Meal_time.

End model.

(** ** Package glukitio: the downstream writers *)

Module glukitio.

(** Go's [error] values; [None] of [option error] is [nil]. *)
Inductive error : Type :=
| ErrShortWrite
| ErrStore (code : Z).

(** [glukitio.CalibrationBatchWriter]: a stateful writer. A call takes
    the writer's state and returns the new state with the results. *)
Class CalibrationBatchWriter (W : Type) := {
  WriteCalibrationBatch : W -> list model.CalibrationRead -> W * (Z * option error);
  CalibrationFlush : W -> W * option error
}.

(** [glukitio.MealBatchWriter]: each call returns the writer to use next
    together with the error. *)
Class MealBatchWriter (W : Type) := {
  WriteMealBatch : W -> list model.Meal -> W * option error;
  MealFlush : W -> W * option error
}.

End glukitio.

(** ** CalibrationReadStreamer *)

Module calibration.
Import goint gotime slices model glukitio.

(** A call received by the downstream writer. *)
Inductive call : Type :=
| CallWriteCalibrationBatch (p : list CalibrationRead)
| CallFlush.

(** The world a streamer runs in: the state of the writer [b.wr] refers
    to, and the calls the writer has received so far, oldest first. *)
Record world (W : Type) : Type := mkWorld {
  store : W;
  calls : list call
}.
Arguments mkWorld {W} store calls.
Arguments store {W} w.
Arguments calls {W} w.

(** The struct; its field [wr] is the reference to the writer of the
    world. *)
Record CalibrationReadStreamer : Type := mkStreamer {
  buf : list CalibrationRead;
  n : Z;
  t : Time;
  d : Duration;
  err : option error
}.

Definition set_buf (b : CalibrationReadStreamer) (x : list CalibrationRead) :=
  mkStreamer x (n b) (t b) (d b) (err b).
Definition set_n (b : CalibrationReadStreamer) (x : Z) :=
  mkStreamer (buf b) x (t b) (d b) (err b).
Definition set_t (b : CalibrationReadStreamer) (x : Time) :=
  mkStreamer (buf b) (n b) x (d b) (err b).
Definition set_err (b : CalibrationReadStreamer) (x : option error) :=
  mkStreamer (buf b) (n b) (t b) (d b) x.

(** Outcome of the loop of [WriteCalibrations]: it runs on, or the
    function returns from inside it. *)
Inductive control : Type :=
| Continue (b : CalibrationReadStreamer) (i : nat) (nn : Z)
| Return (b : CalibrationReadStreamer) (nn : Z) (e : option error).

Section Streamer.
Context {W : Type} {writer : CalibrationBatchWriter W}.

(** [b.wr.WriteCalibrationBatch(p)] *)
Definition wr_WriteCalibrationBatch (p : list CalibrationRead)
  : M (world W) (Z * option error) :=
  fun w =>
    let '(st, r) := WriteCalibrationBatch (store w) p in
    Done (r, mkWorld st (calls w ++ [CallWriteCalibrationBatch p])).

(** [b.wr.Flush()] *)
Definition wr_Flush : M (world W) (option error) :=
  fun w =>
    let '(st, e) := CalibrationFlush (store w) in
    Done (e, mkWorld st (calls w ++ [CallFlush])).

Definition resetFirstReadOfBatch (b : CalibrationReadStreamer)
  (r : CalibrationRead) : CalibrationReadStreamer :=
  set_t b (Truncate (GetTime r) (d b)).

(** [NewCalibrationReadStreamerDuration]. The constant [BUFFER_SIZE] is
    declared in another file of the package; it is a parameter here. *)
Definition NewCalibrationReadStreamerDuration (BUFFER_SIZE : nat)
  (bufferDuration : Duration) : CalibrationReadStreamer :=
  {| buf := replicate BUFFER_SIZE zeroCalibrationRead;
     n := 0;
     t := 0;
     d := bufferDuration;
     err := None |}.

Definition Flush (b : CalibrationReadStreamer)
  : M (world W) (CalibrationReadStreamer * option error) :=
  match err b with
  | Some e => ret (b, Some e)
  | None =>
    if n b =? 0 then ret (b, None)
    else
      do batch <- slice (buf b) 0 (n b);
      do (c, e) <- wr_WriteCalibrationBatch batch;
      let e := if (c <? 1) && (if e is None then true else false)
               then Some ErrShortWrite else e in
      match e with
      | Some e' =>
        do b1 <- (if (0 <? c) && (c <? n b)
                  then
                    do src <- slice (buf b) c (n b);
                    do (buf', _) <- copy (buf b) 0 (n b - c) src;
                    ret (set_buf b buf')
                  else ret b);
        let b2 := set_n b1 (wrap (n b1 - c)) in
        let b3 := set_err b2 (Some e') in
        ret (b3, Some e')
      | None => ret (set_n b 0, None)
      end
  end.

(** The body of the loop of [WriteCalibrations] at index [j], where
    [c] is [p[j]]. *)
Definition WriteCalibrations_body (p : list CalibrationRead) (j : nat)
  (c : CalibrationRead) (b : CalibrationReadStreamer) (i : nat) (nn : Z)
  : M (world W) control :=
  let t' := GetTime c in
  if d b <=? Sub t' (t b) then
    do src <- slice p (Z.of_nat i) (Z.of_nat j);
    do (buf', k) <- copy (buf b) (n b) (Z.of_nat (length (buf b))) src;
    let b := set_n (set_buf b buf') (n b + k) in
    do (b, _) <- Flush b;
    let nn := nn + k in
    match err b with
    | Some e => ret (Return b nn (Some e))
    | None =>
      let i := j in
      do r <- index p i;
      ret (Continue (resetFirstReadOfBatch b r) i nn)
    end
  else ret (Continue b i nn).

(** [for j, c := range p]: [rest] is [p[j:]]. *)
Fixpoint WriteCalibrations_loop (p rest : list CalibrationRead) (j : nat)
  (b : CalibrationReadStreamer) (i : nat) (nn : Z)
  : M (world W) control :=
  match rest with
  | [] => ret (Continue b i nn)
  | c :: rest' =>
    do r <- WriteCalibrations_body p j c b i nn;
    match r with
    | Continue b i nn => WriteCalibrations_loop p rest' (S j) b i nn
    | Return _ _ _ => ret r
    end
  end.

Definition WriteCalibrations (b : CalibrationReadStreamer)
  (p : list CalibrationRead)
  : M (world W) (CalibrationReadStreamer * (Z * option error)) :=
  do b <- (if n b =? 0
           then do r <- index p 0%nat; ret (resetFirstReadOfBatch b r)
           else ret b);
  do r <- WriteCalibrations_loop p p 0%nat b 0%nat 0;
  match r with
  | Return b nn e => ret (b, (nn, e))
  | Continue b i nn =>
    do src <- slice p (Z.of_nat i) (Z.of_nat (length p));
    do (buf', k) <- copy (buf b) (n b) (Z.of_nat (length (buf b))) src;
    let b := set_n (set_buf b buf') (n b + k) in
    let nn := nn + k in
    ret (b, (nn, None))
  end.

Definition WriteCalibration (b : CalibrationReadStreamer)
  (c : CalibrationRead)
  : M (world W) (CalibrationReadStreamer * (Z * option error)) :=
  match err b with
  | Some e => ret (b, (0, Some e))
  | None => WriteCalibrations b [c]
  end.

Definition Close (b : CalibrationReadStreamer)
  : M (world W) (CalibrationReadStreamer * option error) :=
  do (b, e) <- Flush b;
  match e with
  | Some e' => ret (b, Some e')
  | None => do e2 <- wr_Flush; ret (b, e2)
  end.

Definition Buffered (b : CalibrationReadStreamer) : Z := n b.

(** The records held in the buffer: [b.buf[0:b.n]]. *)
Definition buffered_records (b : CalibrationReadStreamer)
  : list CalibrationRead :=
  take (Z.to_nat (n b)) (buf b).

End Streamer.

End calibration.


(** ** Package container: the immutable list *)

Module container.
Import model.

(** Modelled from the spec: package [container] is missing. An
    [ImmutableList] is an immutable, structurally shared linked
    list; a node is built from the next node and a value and is never
    changed afterwards. The nil list is [[]]. *)
Definition ImmutableList : Type := list Meal.

Definition NewImmutableList (next : ImmutableList) (value : Meal)
  : ImmutableList :=
  value :: next.

(** [l.ReverseList()]: the elements in reverse order, and their number. *)
Definition ReverseList (l : ImmutableList) : ImmutableList * nat :=
  (rev l, length l).

End container.

(** ** MealStreamer *)

Module meal.
Import goint gotime slices model glukitio container.

(** A call received by a downstream writer. *)
Inductive call : Type :=
| CallWriteMealBatch (p : list Meal)
| CallFlush.

(** The world a streamer runs in: the heap cells of the variables whose
    address has been taken (a [*model.Meal] is the index of a cell), and
    the calls the writers have received so far, oldest first. *)
Record world : Type := mkWorld {
  cells : list Meal;
  calls : list call
}.

(** The struct. [head] holds the open window, newest record first. *)
Record MealStreamer (W : Type) : Type := mkStreamer {
  head : ImmutableList;
  tailVal : option nat;
  wr : W;
  d : Duration
}.
Arguments mkStreamer {W} head tailVal wr d.
Arguments head {W} m.
Arguments tailVal {W} m.
Arguments wr {W} m.
Arguments d {W} m.

(** How a [for ... range] statement declares its iteration variable.
    [PerLoop]: declared once and re-used in each iteration; this is the
    language up to Go 1.21, the one the repository was written in (its
    code builds against the first App Engine SDK). [PerIteration]: each
    iteration has a variable of its own; this is the language from Go 1.22
    on, for modules that declare that version. *)
Inductive loopvar : Type :=
| PerLoop
| PerIteration.

(** A new heap cell holding [x]; returns its address. *)
Definition alloc (x : Meal) : M world nat :=
  fun w => Done (length (cells w), mkWorld (cells w ++ [x]) (calls w)).

(** Assignment to the variable at address [a]. *)
Definition assign (a : nat) (x : Meal) : M world unit :=
  fun w => Done (tt, mkWorld (<[a := x]> (cells w)) (calls w)).

(** [*p]: panics on the nil pointer. *)
Definition deref (p : option nat) : M world Meal :=
  fun w => match p with
           | Some a => match cells w !! a with
                       | Some x => Done (x, w)
                       | None => Panic
                       end
           | None => Panic
           end.

(** The iteration variable [c] at the start of the loop, and at the start
    of an iteration that gives it the value [x]. *)
Definition loopvar_enter (lv : loopvar) : M world nat :=
  match lv with
  | PerLoop => alloc zeroMeal
  | PerIteration => ret 0%nat
  end.

Definition loopvar_next (lv : loopvar) (a : nat) (x : Meal) : M world nat :=
  match lv with
  | PerLoop => do _ <- assign a x; ret a
  | PerIteration => alloc x
  end.

(** [ListToArrayOfMealReads]: the first [size] values from [cursor] on. *)
Fixpoint ListToArrayOfMealReads {S : Type} (cursor : ImmutableList)
  (size : nat) : M S (list Meal) :=
  match size with
  | O => ret []
  | Datatypes.S k =>
    match cursor with
    | [] => panic
    | x :: next =>
      do r <- ListToArrayOfMealReads next k;
      ret (x :: r)
    end
  end.

Section Streamer.
Context {W : Type} {writer : MealBatchWriter W}.

Definition newMealStreamerDuration (head : ImmutableList)
  (tailVal : option nat) (wr : W) (bufferDuration : Duration)
  : MealStreamer W :=
  mkStreamer head tailVal wr bufferDuration.

Definition NewMealStreamerDuration (wr : W) (bufferDuration : Duration)
  : MealStreamer W :=
  newMealStreamerDuration [] None wr bufferDuration.

(** [wr.WriteMealBatch(p)] *)
Definition wr_WriteMealBatch (wr : W) (p : list Meal)
  : M world (W * option error) :=
  fun w => Done (WriteMealBatch wr p,
                 mkWorld (cells w) (calls w ++ [CallWriteMealBatch p])).

(** [wr.Flush()] *)
Definition wr_Flush (wr : W) : M world (W * option error) :=
  fun w => Done (MealFlush wr, mkWorld (cells w) (calls w ++ [CallFlush])).

(** [Flush]; the streamer returned is [None] for Go's nil. *)
Definition Flush (b : MealStreamer W)
  : M world (option (MealStreamer W) * option error) :=
  let '(r, size) := ReverseList (head b) in
  do batch <- ListToArrayOfMealReads r size;
  if (0 <? length batch)%nat then
    do (innerWriter, e) <- wr_WriteMealBatch (wr b) batch;
    match e with
    | Some e' => ret (None, Some e')
    | None => ret (Some (newMealStreamerDuration [] None innerWriter (d b)), None)
    end
  else ret (Some (newMealStreamerDuration [] None (wr b) (d b)), None).

(** [for _, c := range p]: [a] is the address of [c], [rest] is what is
    left of [p]. *)
Fixpoint WriteMeals_loop (lv : loopvar) (a : nat) (rest : list Meal)
  (s : MealStreamer W) : M world (option (MealStreamer W) * option error) :=
  match rest with
  | [] => ret (Some s, None)
  | x :: rest' =>
    do a <- loopvar_next lv a x;
    do c <- deref (Some a);
    let t := GetTime c in
    match head s with
    | [] =>
      WriteMeals_loop lv a rest'
        (newMealStreamerDuration (NewImmutableList [] c) (Some a) (wr s) (d s))
    | _ :: _ =>
      do tv <- deref (tailVal s);
      if d s <=? Sub t (GetTime tv) then
        do (s', e) <- Flush s;
        match e with
        | Some e' => ret (s', Some e')
        | None =>
          match s' with
          | None => panic
          | Some s' =>
            WriteMeals_loop lv a rest'
              (newMealStreamerDuration (NewImmutableList [] c) (Some a)
                 (wr s') (d s'))
          end
        end
      else
        WriteMeals_loop lv a rest'
          (newMealStreamerDuration (NewImmutableList (head s) c) (tailVal s)
             (wr s) (d s))
    end
  end.

(** The body of [WriteMeals], for either semantics of the iteration
    variable. The test of [err] that follows the first statement is dead:
    the named result [err] is still nil there. *)
Definition WriteMeals_with (lv : loopvar) (b : MealStreamer W)
  (p : list Meal) : M world (option (MealStreamer W) * option error) :=
  let s := newMealStreamerDuration (head b) (tailVal b) (wr b) (d b) in
  do a <- loopvar_enter lv;
  WriteMeals_loop lv a p s.

(** [WriteMeals], in the language the repository is written in. *)
Definition WriteMeals (b : MealStreamer W) (p : list Meal)
  : M world (option (MealStreamer W) * option error) :=
  WriteMeals_with PerLoop b p.

Definition WriteMeal (b : MealStreamer W) (c : Meal)
  : M world (option (MealStreamer W) * option error) :=
  WriteMeals b [c].

Definition Close (b : MealStreamer W)
  : M world (option (MealStreamer W) * option error) :=
  do (g, e) <- Flush b;
  match e with
  | Some e' => ret (g, Some e')
  | None =>
    match g with
    | None => panic
    | Some g =>
      do (innerWriter, e2) <- wr_Flush (wr g);
      match e2 with
      | Some e2' =>
        ret (Some (newMealStreamerDuration (head g) (tailVal g) innerWriter (d b)),
             Some e2')
      | None => ret (Some g, None)
      end
    end
  end.

(** What a caller holding [s] observes through it: the list, the value
    [s.tailVal] points to, and the records of the open window, oldest
    first. *)
Definition observe (s : MealStreamer W) (w : world)
  : ImmutableList * option (option Meal) * list Meal :=
  (head s,
   match tailVal s with
   | Some a => Some (cells w !! a)
   | None => None
   end,
   rev (head s)).

End Streamer.

End meal.


(** ** Writers used to run the streamers *)

Module writers.
Import model glukitio.

(** A calibration writer that follows a script: the head of [batch_script]
    answers the next batch write, the head of [flush_script] the next
    flush. When a script has run out, a batch write commits the whole batch
    and a flush succeeds. *)
Record scripted : Type := mkScripted {
  batch_script : list (Z * option error);
  flush_script : list (option error)
}.

#[global] Instance scripted_writer : CalibrationBatchWriter scripted := {|
  WriteCalibrationBatch st p :=
    match batch_script st with
    | r :: rs => (mkScripted rs (flush_script st), r)
    | [] => (st, (Z.of_nat (length p), None))
    end;
  CalibrationFlush st :=
    match flush_script st with
    | e :: es => (mkScripted (batch_script st) es, e)
    | [] => (st, None)
    end
|}.

(** The calibration writer that commits every batch whole. *)
Definition reliable : scripted := mkScripted [] [].

(** A store that commits every batch whole: its state is the batches it has
    committed, oldest first. *)
Record datastore : Type := mkDatastore {
  committed : list (list CalibrationRead)
}.

#[global] Instance datastore_writer : CalibrationBatchWriter datastore := {|
  WriteCalibrationBatch st p :=
    (mkDatastore (committed st ++ [p]), (Z.of_nat (length p), None));
  CalibrationFlush st := (st, None)
|}.

(** A meal writer that follows a script of answers to batch writes; each
    call returns the writer holding the rest of the script. Its flush
    succeeds. *)
Record meal_scripted : Type := mkMealScripted {
  meal_script : list (option error)
}.

#[global] Instance meal_scripted_writer : MealBatchWriter meal_scripted := {|
  WriteMealBatch st p :=
    match meal_script st with
    | r :: rs => (mkMealScripted rs, r)
    | [] => (st, None)
    end;
  MealFlush st := (st, None)
|}.

Definition meal_reliable : meal_scripted := mkMealScripted [].

End writers.


(** ** Statements about CalibrationReadStreamer *)

Module calibration_spec.
Import goint gotime slices model glukitio calibration.

Section Statements.
Context {W : Type} {writer : CalibrationBatchWriter W}.

(** The flush of [b] in [w] records an error and leaves in the buffer what
    follows the first [C] of the records it submitted, in their order. *)
Definition retains_uncommitted (b : CalibrationReadStreamer) (w : world W)
  (C : Z) : Prop :=
  exists b' e' w',
    Flush b w = Done ((b', Some e'), w') /\
    err b' = Some e' /\
    n b' = n b - C /\
    buffered_records b' = drop (Z.to_nat C) (buffered_records b).

(** Short-write retention as the specification has it: whenever the writer
    reports fewer records committed than the flush submitted, whatever the
    error it reports with them. *)
Definition short_write_retention_spec (b : CalibrationReadStreamer)
  (w : world W) : Prop :=
  forall st C e,
    err b = None ->
    0 < n b <= Z.of_nat (length (buf b)) ->
    n b <= maxInt ->
    WriteCalibrationBatch (store w) (buffered_records b) = (st, (C, e)) ->
    0 <= C < n b ->
    retains_uncommitted b w C.

(** The batches among the calls a writer has received, oldest first. *)
Definition batches (cs : list call) : list (list CalibrationRead) :=
  omap (fun c => match c with
                 | CallWriteCalibrationBatch p => Some p
                 | CallFlush => None
                 end) cs.

(** Every batch write fully succeeds: the writer commits the whole batch
    it is given and reports no error. *)
Definition fully_succeeds : Prop :=
  forall st q,
    (WriteCalibrationBatch st q).2 = (Z.of_nat (length q), None).

(** The grid-aligned policy in the words of the specification. [window]
    is the open window and [anchor] its anchor. A record whose time is
    [duration] or more past the anchor crosses the boundary: the window is
    flushed without the record, and a fresh window opens with the record,
    anchored at its time truncated to a multiple of [duration]. The result
    is the windows flushed, oldest first, then the final anchor and the
    window left open. *)
Fixpoint grid_windows (duration : Duration) (anchor : Time)
  (window p : list CalibrationRead)
  : list (list CalibrationRead) * (Time * list CalibrationRead) :=
  match p with
  | [] => ([], (anchor, window))
  | c :: p' =>
    if duration <=? GetTime c - anchor then
      let '(flushed, final) :=
        grid_windows duration (Truncate (GetTime c) duration) [c] p' in
      (window :: flushed, final)
    else grid_windows duration anchor (window ++ [c]) p'
  end.

(** The anchor a write call starts from: with nothing buffered, the time
    of the first record truncated; the anchor of the open window
    otherwise. *)
Definition start_anchor (b : CalibrationReadStreamer)
  (p : list CalibrationRead) : Time :=
  if n b =? 0
  then match p with
       | c :: _ => Truncate (GetTime c) (d b)
       | [] => t b
       end
  else t b.

(** Timestamps that never decrease along the list. *)
Definition nondecreasing (p : list CalibrationRead) : Prop :=
  StronglySorted (fun x y => GetTime x <= GetTime y) p.

(** A window spans less than [duration]: any two of its records are less
    than [duration] apart. *)
Definition spans_less (duration : Duration) (window : list CalibrationRead)
  : Prop :=
  forall x y, x ∈ window -> y ∈ window -> GetTime y - GetTime x < duration.

(** Idempotent close as the specification has it: once a close of [b] has
    completed, a second close submits no batch and returns no error. *)
Definition close_idempotent_spec (b : CalibrationReadStreamer) (w : world W)
  : Prop :=
  forall b1 w1,
    Close b w = Done ((b1, None), w1) ->
    exists b2 w2,
      Close b1 w1 = Done ((b2, None), w2) /\
      batches (calls w2) = batches (calls w1).

End Statements.

End calibration_spec.


(** ** Statements about MealStreamer *)

Module meal_spec.
Import goint gotime slices model glukitio container meal.

Section Statements.
Context {W : Type} {writer : MealBatchWriter W}.

(** Every pointer of the streamer points to a cell of the world, and the
    anchor is set whenever the window is not empty. *)
Definition well_formed (s : MealStreamer W) (w : world) : Prop :=
  match tailVal s with
  | Some a => (a < length (cells w))%nat
  | None => head s = []
  end.

(** The result of a write: a well-formed streamer and no error, or the nil
    streamer and the error of a failed flush. *)
Definition returned (r : option (MealStreamer W) * option error) (w : world)
  : Prop :=
  match r with
  | (Some s', None) => well_formed s' w
  | (None, Some _) => True
  | _ => False
  end.

(** The batches among the calls the writers have received, oldest first. *)
Definition batches (cs : list call) : list (list Meal) :=
  omap (fun c => match c with
                 | CallWriteMealBatch p => Some p
                 | CallFlush => None
                 end) cs.

(** Recoverable failed flush as the specification has it: when the batch
    write of a non-empty window fails, Flush yields a streamer whose open
    window is a suffix of the records submitted. *)
Definition failed_flush_recoverable_spec (b : MealStreamer W) (w : world)
  : Prop :=
  head b <> [] ->
  forall wr' e,
    WriteMealBatch (wr b) (rev (head b)) = (wr', Some e) ->
    exists s' w',
      Flush b w = Done ((Some s', Some e), w') /\
      rev (head s') `suffix_of` rev (head b).

(** The first-arrival policy in the words of the specification. [window]
    is the open window, oldest first; its anchor is the time of its first
    record. A record whose time is [duration] or more past the anchor
    crosses the boundary: the window is flushed without the record and a
    new window opens with it. The result is the windows flushed, oldest
    first, and the window left open. *)
Fixpoint first_arrival_windows (duration : Duration) (window p : list Meal)
  : list (list Meal) * list Meal :=
  match p with
  | [] => ([], window)
  | c :: p' =>
    match window with
    | [] => first_arrival_windows duration [c] p'
    | first :: _ =>
      if duration <=? GetTime c - GetTime first then
        let '(flushed, open) := first_arrival_windows duration [c] p' in
        (window :: flushed, open)
      else first_arrival_windows duration (window ++ [c]) p'
    end
  end.

(** Every batch write succeeds. *)
Definition never_fails : Prop :=
  forall (wr0 : W) (p : list Meal), (WriteMealBatch wr0 p).2 = None.

(** The anchor of a window that is not empty: the cell [tailVal] points to
    holds the first record of the window. *)
Definition anchored (s : MealStreamer W) (w : world) : Prop :=
  match head s with
  | [] => True
  | _ :: _ =>
    exists a first,
      tailVal s = Some a /\ cells w !! a = Some first /\
      last (head s) = Some first
  end.

End Statements.

End meal_spec.


(** ** Further statements and inputs *)

Module calibration_more_spec.
Import goint gotime slices model glukitio calibration calibration_spec writers.

Section Statements.
Context {W : Type} {writer : CalibrationBatchWriter W}.

(** The writer keeps its counts in range: a count is never negative, and a
    count reported with an error is no more than the size of the batch. *)
Definition counts_in_range : Prop :=
  forall st q,
    0 <= (WriteCalibrationBatch st q).2.1 /\
    ((WriteCalibrationBatch st q).2.2 <> None ->
     (WriteCalibrationBatch st q).2.1 <= Z.of_nat (length q)).

(** No record of [p] crosses the boundary of the window anchored at
    [anchor]. *)
Definition stays_in_window (anchor : Time) (duration : Duration)
  (p : list CalibrationRead) : Prop :=
  Forall (fun c => Sub (GetTime c) anchor < duration) p.

End Statements.

(** A buffer of six slots holding the records of 00:00 and 00:30 in the
    window anchored at 00:00, with a duration of one hour and the fault
    state [e]. *)
Definition half_hour_buffer (e : option error) : CalibrationReadStreamer :=
  mkStreamer
    [mkCalibrationRead 0 100; mkCalibrationRead (30 * Minute) 101;
     zeroCalibrationRead; zeroCalibrationRead; zeroCalibrationRead;
     zeroCalibrationRead]
    2 0 Hour e.

(** Records at 00:45 and at 01:15. *)
Definition c0045 : CalibrationRead := mkCalibrationRead (45 * Minute) 102.
Definition c0115 : CalibrationRead := mkCalibrationRead (Hour + 15 * Minute) 103.

(** A writer whose batch writes succeed and whose flush fails. *)
Definition flush_fails : scripted := mkScripted [] [Some (ErrStore 9)].

(** A writer that answers the next batch write with [r]. *)
Definition answers (r : Z * option error) : scripted := mkScripted [r] [].

End calibration_more_spec.


Module meal_more_spec.
Import goint gotime slices model glukitio container meal meal_spec writers.

(** A meal store that never fails: a writer is the batches committed so
    far, oldest first, and each batch write returns the writer with the
    batch added. *)
Record meal_store : Type := mkMealStore {
  meal_committed : list (list Meal)
}.

#[global] Instance meal_store_writer : MealBatchWriter meal_store := {|
  WriteMealBatch st p := (mkMealStore (meal_committed st ++ [p]), None);
  MealFlush st := (st, None)
|}.

(** Records a quarter of an hour, two hours and five hours after
    midnight. *)
Definition m0015 : Meal := mkMeal (15 * Minute) 20.
Definition m0200 : Meal := mkMeal (2 * Hour) 21.
Definition m0500 : Meal := mkMeal (5 * Hour) 22.

(** A new streamer over the meal store, with a duration of one hour. *)
Definition fresh_meals : MealStreamer meal_store :=
  NewMealStreamerDuration (mkMealStore []) Hour.

(** A streamer over the meal store holding the window of the record at a
    quarter past midnight, anchored at the cell 0 of [quarter_cell]. *)
Definition quarter_meals : MealStreamer meal_store :=
  mkStreamer [m0015] (Some 0%nat) (mkMealStore []) Hour.

Definition quarter_cell : world := mkWorld [m0015] [].

End meal_more_spec.


(** ** Inputs the statements are run on *)

Module examples.
Import goint gotime slices model glukitio writers.
Import calibration.

(** The writer answers the first batch write with [r], then follows the
    script of [reliable]. *)
Definition answering (r : Z * option error) : scripted := mkScripted [r] [].

Definition two_buffered : CalibrationReadStreamer :=
  mkStreamer [mkCalibrationRead 10 1; mkCalibrationRead 20 2; zeroCalibrationRead]
    2 0 Hour None.

(** A writer whose flush succeeds once and fails from then on. *)
Definition flush_fails_second : scripted :=
  mkScripted [] [None; Some (ErrStore 1)].

(** The time of day h:m on the first day of Go's calendar. *)
Definition clock (h m : Z) : Time := h * Hour + m * Minute.

(** The scenario of the specification: records at 00:00, 00:30, 01:00 and
    01:30. *)
Definition c0000 : CalibrationRead := mkCalibrationRead (clock 0 0) 100.
Definition c0030 : CalibrationRead := mkCalibrationRead (clock 0 30) 101.
Definition c0100 : CalibrationRead := mkCalibrationRead (clock 1 0) 102.
Definition c0130 : CalibrationRead := mkCalibrationRead (clock 1 30) 103.
Definition scenario : list CalibrationRead := [c0000; c0030; c0100; c0130].

(** [k] records, one nanosecond apart, from the zero time on. *)
Definition ticks (k : nat) : list CalibrationRead :=
  (fun i => mkCalibrationRead (Z.of_nat i) 0) <$> seq 0 k.

(** Strictly increasing timestamps. *)
Definition strictly_increasing (p : list CalibrationRead) : Prop :=
  forall i j x y,
    p !! i = Some x -> p !! j = Some y -> (i < j)%nat ->
    GetTime x < GetTime y.

(** The same scenario for meals. *)
Definition m0000 : Meal := mkMeal (clock 0 0) 10.
Definition m0030 : Meal := mkMeal (clock 0 30) 11.
Definition m0100 : Meal := mkMeal (clock 1 0) 12.
Definition m0130 : Meal := mkMeal (clock 1 30) 13.
Definition meal_scenario : list Meal := [m0000; m0030; m0100; m0130].

(** A meal writer whose next batch write fails. *)
Definition meal_failing : meal_scripted := mkMealScripted [Some (ErrStore 1)].

(** A meal streamer holding the window [m0000; m0030], anchored at the
    cell 0 of [one_cell]. *)
Definition two_meals (wr : meal_scripted) : meal.MealStreamer meal_scripted :=
  meal.mkStreamer [m0030; m0000] (Some 0%nat) wr Hour.

Definition one_cell : meal.world := meal.mkWorld [m0000] [].

Definition no_cell : meal.world := meal.mkWorld [] [].

(** The records of [p] written one per call, each call on the streamer the
    call before returned. *)
Fixpoint WriteMeal_each {W : Type} {writer : MealBatchWriter W}
  (s : option (meal.MealStreamer W)) (p : list Meal)
  : M meal.world (option (meal.MealStreamer W) * option error) :=
  match p with
  | [] => ret (s, None)
  | c :: p' =>
    match s with
    | None => panic
    | Some s0 =>
      do (s1, e) <- meal.WriteMeal s0 c;
      match e with
      | Some e' => ret (s1, Some e')
      | None => WriteMeal_each s1 p'
      end
    end
  end.

End examples.


(** * Properties of CalibrationReadStreamer *)

Module calibration_faults.
Import goint gotime slices model glukitio calibration writers.

Section Generic.
Context {W : Type} {writer : CalibrationBatchWriter W}.

(** A flush that returns an error has recorded that error in the buffer. *)
Lemma Flush_error_recorded (b b' : CalibrationReadStreamer) (e : error)
  (w w' : world W) :
  Flush b w = Done ((b', Some e), w') -> err b' = Some e.
Proof.
  unfold Flush. destruct (err b) as [e0|] eqn:Herr.
  - cbv [ret]. intros [= <- <- <-]. exact Herr.
  - destruct (n b =? 0).
    + cbv [ret]. discriminate.
    + unfold bind at 1. destruct (slice (buf b) 0 (n b) w) as [[batch w1]|]; [|discriminate].
      unfold bind at 1. unfold wr_WriteCalibrationBatch.
      destruct (WriteCalibrationBatch (store w1) batch) as [st [c e1]].
      set (e2 := if (c <? 1) && _ then _ else _).
      destruct e2 as [e2|]; [|cbv [ret]; discriminate].
      unfold bind at 1.
      match goal with |- context [match ?m ?x with _ => _ end] =>
        destruct (m x) as [[b1 w2]|] end; [|discriminate].
      cbv [ret]. intros [= <- <- <-]. reflexivity.
Qed.

(** C3 (sticky fault). In a buffer whose fault state holds an error, Flush
    returns that error and WriteCalibration returns count 0 with that
    error; both leave the buffer as it is and the world as it is: the
    writer receives no call and its state is not touched. *)
Theorem sticky_fault (b : CalibrationReadStreamer) (e : error)
  (c : CalibrationRead) (w : world W) :
  err b = Some e ->
  Flush b w = Done ((b, Some e), w) /\
  WriteCalibration b c w = Done ((b, (0, Some e)), w).
Proof.
  intros Herr. unfold Flush, WriteCalibration. rewrite Herr. split; reflexivity.
Qed.

(** C9 (unguarded empty input). With no record buffered, WriteCalibrations
    on the empty slice reads [p[0]] and panics: no error is returned. *)
Theorem WriteCalibrations_empty_input_panics (b : CalibrationReadStreamer)
  (w : world W) :
  n b = 0 -> WriteCalibrations b [] w = Panic.
Proof.
  intros Hn. unfold WriteCalibrations. rewrite Hn. reflexivity.
Qed.

End Generic.

Lemma sticky_fault_witness :
  let b := mkStreamer [mkCalibrationRead 5 1; zeroCalibrationRead] 1 0 Hour
             (Some ErrShortWrite) in
  let w := mkWorld reliable [] in
  Flush b w = Done ((b, Some ErrShortWrite), w) /\
  WriteCalibration b (mkCalibrationRead 7 2) w
    = Done ((b, (0, Some ErrShortWrite)), w).
Proof.
  intros b w. apply (sticky_fault b ErrShortWrite). reflexivity.
Defined.

Lemma WriteCalibrations_empty_input_panics_witness :
  WriteCalibrations (NewCalibrationReadStreamerDuration 4 Hour) []
    (mkWorld reliable []) = Panic.
Proof.
  apply WriteCalibrations_empty_input_panics. reflexivity.
Defined.

End calibration_faults.


Module calibration_flush.
Import goint gotime slices model glukitio calibration calibration_spec writers examples.

Lemma slice_in_range {A S : Type} (s : list A) (lo hi : Z) (w : S) :
  0 <= lo <= hi -> hi <= Z.of_nat (length s) ->
  slice s lo hi w = Done (take (Z.to_nat (hi - lo)) (drop (Z.to_nat lo) s), w).
Proof.
  intros [H1 H2] H3. unfold slice, in_range.
  rewrite (proj2 (Z.leb_le _ _) H1), (proj2 (Z.leb_le _ _) H2),
    (proj2 (Z.leb_le _ _) H3).
  reflexivity.
Qed.

Lemma copy_in_range {A S : Type} (s : list A) (lo hi : Z) (src : list A) (w : S) :
  0 <= lo <= hi -> hi <= Z.of_nat (length s) ->
  copy s lo hi src w =
    Done ((take (Z.to_nat lo) s
             ++ take (Nat.min (Z.to_nat (hi - lo)) (length src)) src
             ++ drop (Z.to_nat lo + Nat.min (Z.to_nat (hi - lo)) (length src)) s,
           Z.of_nat (Nat.min (Z.to_nat (hi - lo)) (length src))), w).
Proof.
  intros [H1 H2] H3. unfold copy, in_range.
  rewrite (proj2 (Z.leb_le _ _) H1), (proj2 (Z.leb_le _ _) H2),
    (proj2 (Z.leb_le _ _) H3).
  reflexivity.
Qed.

Lemma wrap_int (z : Z) : is_int z -> wrap z = z.
Proof.
  unfold is_int, minInt, maxInt, wrap. intros H.
  rewrite Z.mod_small; lia.
Qed.

Section Generic.
Context {W : Type} {writer : CalibrationBatchWriter W}.

(** What Flush does when it submits a batch, by the answer of the writer. *)
Lemma Flush_submits (b : CalibrationReadStreamer) (w : world W) (st : W)
  (c : Z) (e : option error) :
  err b = None ->
  0 < n b <= Z.of_nat (length (buf b)) ->
  WriteCalibrationBatch (store w) (buffered_records b) = (st, (c, e)) ->
  let w' := mkWorld st (calls w ++ [CallWriteCalibrationBatch (buffered_records b)]) in
  Flush b w =
    match (if (c <? 1) && (if e is None then true else false)
           then Some ErrShortWrite else e) with
    | None => Done ((set_n b 0, None), w')
    | Some e' =>
      let buf' := if (0 <? c) && (c <? n b)
                  then take (Z.to_nat (n b - c)) (drop (Z.to_nat c) (buf b))
                         ++ drop (Z.to_nat (n b - c)) (buf b)
                  else buf b in
      Done ((mkStreamer buf' (wrap (n b - c)) (t b) (d b) (Some e'), Some e'), w')
    end.
Proof.
  intros Herr Hn Hwr w'. unfold Flush. rewrite Herr.
  destruct (n b =? 0) eqn:Hz; [lia|].
  unfold bind at 1. rewrite slice_in_range by lia.
  rewrite Z.sub_0_r. change (Z.to_nat 0) with 0%nat. rewrite drop_0.
  unfold bind at 1. unfold wr_WriteCalibrationBatch.
  unfold buffered_records in Hwr. cbn [store]. rewrite Hwr.
  fold (buffered_records b). fold w'.
  destruct (if (c <? 1) && _ then _ else e) as [e'|]; [|reflexivity].
  destruct ((0 <? c) && (c <? n b)) eqn:Hc.
  - apply andb_true_iff in Hc as [Hc1 Hc2].
    apply Z.ltb_lt in Hc1, Hc2.
    unfold bind at 1. unfold bind at 1.
    rewrite slice_in_range by lia.
    unfold bind at 1. rewrite copy_in_range by lia.
    cbv [ret]. cbn [set_buf set_n set_err buf n t d err].
    rewrite Z.sub_0_r. change (Z.to_nat 0) with 0%nat.
    rewrite take_0, Nat.add_0_l. cbn [app].
    rewrite length_take, length_drop.
    replace (Nat.min (Z.to_nat (n b - c))
               (Nat.min (Z.to_nat (n b - c)) (length (buf b) - Z.to_nat c)))
      with (Z.to_nat (n b - c)) by lia.
    rewrite take_take. replace (Nat.min _ _) with (Z.to_nat (n b - c)) by lia.
    reflexivity.
  - unfold bind at 1. cbv [ret]. reflexivity.
Qed.

(** C2, amended (short-write retention). A flush submits the K > 0 buffered
    records. When the writer reports C committed, 0 <= C < K, and either
    reports an error with it or reports C = 0 (no error then counts as
    ErrShortWrite), the flush records the error as the fault state and the
    buffer afterwards holds exactly the K-C uncommitted records, at the
    front and in their order. *)
Theorem short_write_retention (b : CalibrationReadStreamer) (w : world W)
  (st : W) (C : Z) (e : option error) :
  err b = None ->
  0 < n b <= Z.of_nat (length (buf b)) ->
  n b <= maxInt ->
  WriteCalibrationBatch (store w) (buffered_records b) = (st, (C, e)) ->
  0 <= C < n b ->
  e <> None \/ C = 0 ->
  let e' := match e with Some x => x | None => ErrShortWrite end in
  exists b',
    Flush b w = Done ((b', Some e'),
                      mkWorld st (calls w ++ [CallWriteCalibrationBatch (buffered_records b)])) /\
    err b' = Some e' /\
    n b' = n b - C /\
    Z.of_nat (length (buffered_records b')) = n b - C /\
    buffered_records b' = drop (Z.to_nat C) (buffered_records b).
Proof.
  intros Herr Hn Hmax Hwr HC He e'.
  rewrite (Flush_submits b w st C e Herr Hn Hwr).
  assert (Hcls : (if (C <? 1) && (if e is None then true else false)
                  then Some ErrShortWrite else e) = Some e').
  { subst e'. destruct e as [x|].
    - rewrite andb_false_r. reflexivity.
    - destruct He as [He|He]; [congruence|]. subst C. reflexivity. }
  rewrite Hcls. eexists. split; [reflexivity|].
  cbn [err n buf]. unfold buffered_records. cbn [n buf].
  assert (Hw : wrap (n b - C) = n b - C).
  { apply wrap_int. unfold is_int, minInt, maxInt in *. lia. }
  rewrite Hw. split; [reflexivity|]. split; [reflexivity|].
  destruct ((0 <? C) && (C <? n b)) eqn:Hc.
  - rewrite take_app_length' by (rewrite length_take, length_drop; lia).
    rewrite length_take, length_drop. split; [lia|].
    rewrite take_drop_commute. f_equal. f_equal. lia.
  - assert (C = 0) as -> by (apply andb_false_iff in Hc as [Hc|Hc]; lia).
    rewrite Z.sub_0_r, length_take. split; [lia|]. reflexivity.
Qed.

End Generic.

Lemma short_write_retention_witness :
  exists b',
    Flush two_buffered (mkWorld (answering (1, Some (ErrStore 7))) [])
      = Done ((b', Some (ErrStore 7)),
              mkWorld reliable
                [CallWriteCalibrationBatch
                   [mkCalibrationRead 10 1; mkCalibrationRead 20 2]]) /\
    err b' = Some (ErrStore 7) /\
    n b' = 2 - 1 /\
    Z.of_nat (length (buffered_records b')) = 2 - 1 /\
    buffered_records b' = [mkCalibrationRead 20 2].
Proof.
  apply (short_write_retention two_buffered
           (mkWorld (answering (1, Some (ErrStore 7))) []) reliable 1
           (Some (ErrStore 7)));
    first [ reflexivity | vm_compute; intuition congruence | left; discriminate ].
Defined.

(** C2, counterexample. Two records are submitted and the writer reports
    one committed with no error: the flush takes it for a full commit,
    records no error and empties the buffer. *)
Lemma short_write_retention_spec_fails :
  ~ short_write_retention_spec two_buffered (mkWorld (answering (1, None)) []).
Proof.
  intros Hspec.
  destruct (Hspec reliable 1 None) as (b' & e' & w' & Hflush & _);
    try first [ reflexivity | vm_compute; intuition congruence ].
  vm_compute in Hflush. discriminate.
Qed.

End calibration_flush.


Module calibration_close.
Import goint gotime slices model glukitio calibration calibration_spec writers examples.

Section Generic.
Context {W : Type} {writer : CalibrationBatchWriter W}.

(** A flush that returns no error leaves the buffer empty and faultless. *)
Lemma Flush_ok_empty (b b' : CalibrationReadStreamer) (w w' : world W) :
  Flush b w = Done ((b', None), w') -> err b' = None /\ n b' = 0.
Proof.
  unfold Flush. destruct (err b) as [e0|] eqn:Herr.
  - cbv [ret]. discriminate.
  - destruct (n b =? 0) eqn:Hz.
    + cbv [ret]. intros [= <- <-]. split; [exact Herr | lia].
    + unfold bind at 1.
      destruct (slice (buf b) 0 (n b) w) as [[batch w1]|]; [|discriminate].
      unfold bind at 1. unfold wr_WriteCalibrationBatch.
      destruct (WriteCalibrationBatch (store w1) batch) as [st [c e1]].
      set (e2 := if (c <? 1) && _ then _ else _).
      destruct e2 as [e2|].
      * unfold bind at 1.
        match goal with |- context [match ?m ?x with _ => _ end] =>
          destruct (m x) as [[b1 w2]|] end; [|discriminate].
        cbv [ret]. discriminate.
      * cbv [ret]. intros [= <- <-]. split; [exact Herr | reflexivity].
Qed.

(** Flush on an empty, faultless buffer does nothing. *)
Lemma Flush_empty (b : CalibrationReadStreamer) (w : world W) :
  err b = None -> n b = 0 -> Flush b w = Done ((b, None), w).
Proof.
  intros Herr Hn. unfold Flush. rewrite Herr, Hn. reflexivity.
Qed.

Lemma Close_completed (b b1 : CalibrationReadStreamer) (w w1 : world W) :
  Close b w = Done ((b1, None), w1) -> err b1 = None /\ n b1 = 0.
Proof.
  unfold Close. unfold bind at 1.
  destruct (Flush b w) as [[[b' [e|]] w']|] eqn:HF; try discriminate.
  unfold bind, wr_Flush. destruct (CalibrationFlush (store w')) as [st e2].
  cbv [ret]. intros Heq. injection Heq as <- _ _.
  eapply Flush_ok_empty; eassumption.
Qed.

(** The second close: no flush of the buffer, one flush of the writer. *)
Lemma Close_again (b b1 : CalibrationReadStreamer) (w w1 : world W) :
  Close b w = Done ((b1, None), w1) ->
  Close b1 w1 =
    Done ((b1, (CalibrationFlush (store w1)).2),
          mkWorld (CalibrationFlush (store w1)).1 (calls w1 ++ [CallFlush])).
Proof.
  intros HC. apply Close_completed in HC as [Herr Hn].
  unfold Close. unfold bind at 1. rewrite (Flush_empty b1 w1 Herr Hn).
  cbn. unfold bind, wr_Flush. destruct (CalibrationFlush (store w1)) as [st e2].
  reflexivity.
Qed.

Lemma batches_app (cs cs' : list call) :
  batches (cs ++ cs') = batches cs ++ batches cs'.
Proof. unfold batches. apply omap_app. Qed.

End Generic.

(** C7, counterexample. A close completes on a writer whose own flush
    fails the second time it is called: the second close returns that
    error. *)
Lemma close_idempotent_spec_fails :
  ~ close_idempotent_spec (NewCalibrationReadStreamerDuration 4 Hour)
      (mkWorld flush_fails_second []).
Proof.
  intros Hspec.
  destruct (Hspec (NewCalibrationReadStreamerDuration 4 Hour)
              (mkWorld (mkScripted [] [Some (ErrStore 1)]) [CallFlush]))
    as (b2 & w2 & HC & _); [reflexivity|].
  vm_compute in HC. discriminate.
Qed.

End calibration_close.


Module calibration_windows.
Import goint gotime slices model glukitio calibration calibration_spec writers examples.
Import calibration_flush calibration_close.

(** The saturation of [Sub] does not show in the test against a positive
    duration. *)
Lemma Sub_crossing (x u : Time) (dur : Duration) :
  0 < dur <= maxDuration ->
  (dur <=? Sub x u) = (dur <=? x - u).
Proof.
  unfold Sub, maxDuration, minDuration. intros Hd.
  destruct (Z.ltb_spec (2 ^ 63 - 1) (x - u));
    [|destruct (Z.ltb_spec (x - u) (- 2 ^ 63))];
    destruct (Z.leb_spec dur (x - u)); try lia;
    match goal with |- (?a <=? ?b) = _ => destruct (Z.leb_spec a b) end; lia.
Qed.

Lemma Truncate_le (x : Time) (dur : Duration) :
  0 < dur -> 0 <= x - Truncate x dur < dur.
Proof.
  intros Hd. unfold Truncate. destruct (Z.leb_spec dur 0); [lia|].
  pose proof (Z.mod_pos_bound x dur Hd). lia.
Qed.


Lemma drop_cons_inv {A : Type} (p : list A) (j : nat) (c : A) (rest : list A) :
  drop j p = c :: rest ->
  p !! j = Some c /\ drop (S j) p = rest /\ (j < length p)%nat.
Proof.
  intros Hd.
  assert (Hl : p !! j = Some c).
  { rewrite <- (Nat.add_0_r j), <- lookup_drop, Hd. reflexivity. }
  split; [exact Hl|]. split.
  - rewrite (drop_S _ _ _ Hl) in Hd. congruence.
  - eapply lookup_lt_Some; eassumption.
Qed.

Lemma run_snoc {A : Type} (p : list A) (i j : nat) (c : A) :
  p !! j = Some c -> (i <= j)%nat ->
  take (S j - i) (drop i p) = take (j - i) (drop i p) ++ [c].
Proof.
  intros Hl Hij. replace (S j - i)%nat with (S (j - i)) by lia.
  apply take_S_r. rewrite lookup_drop. rewrite <- Hl. f_equal. lia.
Qed.

Section Generic.
Context {W : Type} {writer : CalibrationBatchWriter W}.

(** A record that does not cross the boundary leaves everything as it is. *)
Lemma body_no_crossing (p : list CalibrationRead) (j : nat) (c : CalibrationRead)
  (b : CalibrationReadStreamer) (i : nat) (nn : Z) (w : world W) :
  (d b <=? Sub (GetTime c) (t b)) = false ->
  WriteCalibrations_body p j c b i nn w = Done (Continue b i nn, w).
Proof.
  intros H. unfold WriteCalibrations_body. rewrite H. reflexivity.
Qed.

(** A record that crosses the boundary: the buffered records and the run
    p[i:j] are submitted as one batch; when the writer commits it the
    buffer is empty and the anchor is the truncated time of the record. *)
Lemma body_crossing (p : list CalibrationRead) (j : nat) (c : CalibrationRead)
  (b : CalibrationReadStreamer) (i : nat) (nn : Z) (w : world W) :
  fully_succeeds ->
  (d b <=? Sub (GetTime c) (t b)) = true ->
  err b = None ->
  p !! j = Some c ->
  (i <= j)%nat ->
  0 <= n b ->
  0 < n b + Z.of_nat (j - i) ->
  n b + Z.of_nat (j - i) <= Z.of_nat (length (buf b)) ->
  exists b' st,
    WriteCalibrations_body p j c b i nn w
      = Done (Continue b' j (nn + Z.of_nat (j - i)),
              mkWorld st (calls w ++ [CallWriteCalibrationBatch
                                        (buffered_records b ++ take (j - i) (drop i p))])) /\
    n b' = 0 /\ err b' = None /\ d b' = d b /\
    t b' = Truncate (GetTime c) (d b) /\
    length (buf b') = length (buf b).
Proof.
  intros Hok Hx Herr Hl Hij Hn0 Hne Hcap.
  pose proof (lookup_lt_Some _ _ _ Hl) as Hj.
  unfold WriteCalibrations_body. rewrite Hx.
  unfold bind at 1. rewrite slice_in_range by lia.
  replace (Z.to_nat (Z.of_nat j - Z.of_nat i)) with (j - i)%nat by lia.
  rewrite Nat2Z.id.
  set (src := take (j - i) (drop i p)).
  assert (Hsrc : length src = (j - i)%nat).
  { subst src. rewrite length_take, length_drop. lia. }
  unfold bind at 1. rewrite copy_in_range by lia.
  rewrite Hsrc.
  replace (Nat.min (Z.to_nat (Z.of_nat (length (buf b)) - n b)) (j - i))
    with (j - i)%nat by lia.
  rewrite (take_ge src) by lia.
  set (buf1 := take (Z.to_nat (n b)) (buf b) ++ src ++ drop (Z.to_nat (n b) + (j - i)) (buf b)).
  assert (Hlen1 : length buf1 = length (buf b)).
  { subst buf1. rewrite !length_app, length_take, length_drop. lia. }
  set (b1 := set_n (set_buf b buf1) (n b + Z.of_nat (j - i))).
  assert (Hbr : buffered_records b1 = buffered_records b ++ src).
  { unfold buffered_records, b1. cbn [set_n set_buf n buf].
    subst buf1. rewrite app_assoc.
    rewrite take_app_length'; [reflexivity|].
    rewrite length_app, length_take. lia. }
  unfold bind at 1.
  destruct (WriteCalibrationBatch (store w) (buffered_records b1)) as [st [cnt e]] eqn:Hwr.
  pose proof (Hok (store w) (buffered_records b1)) as Hans.
  rewrite Hwr in Hans. cbn in Hans. injection Hans as -> ->.
  rewrite (Flush_submits b1 w st (Z.of_nat (length (buffered_records b1))) None);
    [|exact Herr|cbn; lia|exact Hwr].
  assert (Hpos : (Z.of_nat (length (buffered_records b1)) <? 1) = false).
  { apply Z.ltb_ge. rewrite Hbr, length_app, Hsrc.
    unfold buffered_records. rewrite length_take. lia. }
  rewrite Hpos. cbn [andb].
  cbn [set_n set_buf err n buf t d b1].
  rewrite Herr. unfold bind at 1. unfold index. rewrite Hl.
  cbv [ret]. rewrite Hbr.
  eexists _, st. split; [reflexivity|].
  cbn. auto.
Qed.

(** The loop of WriteCalibrations follows the grid-aligned policy. The
    open window of the policy is what the buffer holds followed by the run
    p[i:j] that is not copied yet. *)
Lemma loop_grid (p : list CalibrationRead) :
  fully_succeeds ->
  forall rest j b i (w : world W) flushed a open,
    drop j p = rest ->
    0 < d b <= maxDuration ->
    err b = None ->
    (i <= j)%nat ->
    (i <= length p)%nat ->
    0 <= n b ->
    n b + Z.of_nat (length p - i) <= Z.of_nat (length (buf b)) ->
    (0 < n b + Z.of_nat (j - i) \/
     match rest with
     | c :: _ => GetTime c - t b < d b
     | [] => True
     end) ->
    grid_windows (d b) (t b)
      (buffered_records b ++ take (j - i) (drop i p)) rest
      = (flushed, (a, open)) ->
    exists b' i' w',
      WriteCalibrations_loop p rest j b i (Z.of_nat i) w
        = Done (Continue b' i' (Z.of_nat i'), w') /\
      calls w' = calls w ++ map CallWriteCalibrationBatch flushed /\
      t b' = a /\
      buffered_records b' ++ drop i' p = open /\
      err b' = None /\ d b' = d b /\
      length (buf b') = length (buf b) /\
      0 <= n b' /\
      (i' <= length p)%nat /\
      n b' + Z.of_nat (length p - i') <= Z.of_nat (length (buf b')).
Proof.
  intros Hok rest. induction rest as [|c rest' IH];
    intros j b i w flushed a open Hdrop Hd Herr Hij Hip Hn0 Hcap Hne Hgrid.
  - cbn in Hgrid. simplify_eq.
    exists b, i, w. cbn [WriteCalibrations_loop]. split; [reflexivity|].
    cbn [map]. rewrite app_nil_r.
    assert (Hlen : (length p <= j)%nat).
    { apply (f_equal length) in Hdrop. rewrite length_drop in Hdrop.
      cbn in Hdrop. lia. }
    rewrite (take_ge (drop i p)) by (rewrite length_drop; lia).
    repeat split; auto; lia.
  - apply drop_cons_inv in Hdrop as (Hl & Hdrop' & Hj).
    cbn [WriteCalibrations_loop grid_windows] in *.
    destruct (d b <=? Sub (GetTime c) (t b)) eqn:Hx.
    + (* the record crosses the boundary *)
      pose proof Hx as Hx'. rewrite (Sub_crossing _ _ _ Hd) in Hx'.
      rewrite Hx' in Hgrid.
      destruct (grid_windows (d b) (Truncate (GetTime c) (d b)) [c] rest')
        as [fl' fin] eqn:Hrec.
      simplify_eq.
      assert (Hne' : 0 < n b + Z.of_nat (j - i)).
      { destruct Hne as [Hne|Hne]; [exact Hne|].
        apply Z.leb_le in Hx'. lia. }
      destruct (body_crossing p j c b i (Z.of_nat i) w Hok Hx Herr Hl Hij Hn0 Hne')
        as (b1 & st & Hbody & Hn1 & Herr1 & Hd1 & Ht1 & Hlen1); [lia|].
      set (w1 := mkWorld st _) in Hbody.
      assert (Hd1' : 0 < d b1 <= maxDuration) by (rewrite Hd1; exact Hd).
      assert (Hij1 : (j <= S j)%nat) by lia.
      assert (Hn1' : 0 <= n b1) by lia.
      assert (Hcap1 : n b1 + Z.of_nat (length p - j) <= Z.of_nat (length (buf b1)))
        by (rewrite Hlen1; lia).
      assert (Hg1 : grid_windows (d b1) (t b1)
                      (buffered_records b1 ++ take (S j - j) (drop j p))
                      (drop (S j) p) = (fl', (a, open))).
      { rewrite Hd1, Ht1. unfold buffered_records. rewrite Hn1.
        change (Z.to_nat 0) with 0%nat. rewrite take_0. cbn [app].
        replace (S j - j)%nat with 1%nat by lia.
        rewrite (drop_S _ _ _ Hl). cbn [take]. rewrite take_0. exact Hrec. }
      assert (Hjp : (j <= length p)%nat) by lia.
      destruct (IH (S j) b1 j w1 fl' a open eq_refl Hd1' Herr1 Hij1 Hjp Hn1' Hcap1)
        as (b' & i' & w' & Hloop & Hcalls & Ht & Hopen & Herr' & Hd' & Hlen' & Hn' & Hip' & Hcap');
        [left; lia|exact Hg1|].
      exists b', i', w'. unfold bind at 1. rewrite Hbody.
        replace (Z.of_nat i + Z.of_nat (j - i)) with (Z.of_nat j) by lia.
        split; [exact Hloop|]. split.
        { rewrite Hcalls. subst w1. cbn [calls map].
          rewrite <- app_assoc. reflexivity. }
        repeat split; auto; try lia; congruence.
    + (* the record joins the open window *)
      pose proof Hx as Hx'. rewrite (Sub_crossing _ _ _ Hd) in Hx'.
      rewrite Hx' in Hgrid.
      rewrite <- app_assoc, <- (run_snoc p i j c Hl Hij) in Hgrid.
      assert (Hij1 : (i <= S j)%nat) by lia.
      destruct (IH (S j) b i w flushed a open Hdrop' Hd Herr Hij1 Hip Hn0 Hcap)
        as (b' & i' & w' & Hloop & Hrest); [left; lia|exact Hgrid|].
      exists b', i', w'. unfold bind at 1.
      rewrite (body_no_crossing p j c b i (Z.of_nat i) w Hx).
      split; [exact Hloop|exact Hrest].
Qed.

(** The window left open by a write of at least one record is not empty. *)
Lemma grid_windows_open (dur : Duration) (p : list CalibrationRead) :
  forall anchor window flushed a open,
    grid_windows dur anchor window p = (flushed, (a, open)) ->
    window <> [] \/ p <> [] -> open <> [].
Proof.
  induction p as [|c p' IH]; intros anchor window flushed a open Hgrid Hne.
  - cbn in Hgrid. simplify_eq. destruct Hne; congruence.
  - cbn in Hgrid. destruct (dur <=? GetTime c - anchor).
    + destruct (grid_windows dur (Truncate (GetTime c) dur) [c] p')
        as [fl' [a' open']] eqn:Hrec.
      simplify_eq. eapply IH; [exact Hrec|]. left. discriminate.
    + eapply IH; [exact Hgrid|]. left. destruct window; discriminate.
Qed.

(** The copy that ends WriteCalibrations, when the buffer has room. *)
Lemma final_copy (p : list CalibrationRead) (b : CalibrationReadStreamer)
  (i : nat) (nn : Z) (w : world W) :
  (i <= length p)%nat ->
  0 <= n b ->
  n b + Z.of_nat (length p - i) <= Z.of_nat (length (buf b)) ->
  exists b',
    (do src <- slice p (Z.of_nat i) (Z.of_nat (length p));
     do (buf', k) <- copy (buf b) (n b) (Z.of_nat (length (buf b))) src;
     let b := set_n (set_buf b buf') (n b + k) in
     let nn := nn + k in
     ret (b, (nn, @None error))) w
      = Done ((b', (nn + Z.of_nat (length p - i), None)), w) /\
    buffered_records b' = buffered_records b ++ drop i p /\
    n b' = n b + Z.of_nat (length p - i) /\
    t b' = t b /\ d b' = d b /\ err b' = err b /\
    length (buf b') = length (buf b).
Proof.
  intros Hi Hn0 Hcap.
  unfold bind at 1. rewrite slice_in_range by lia.
  replace (Z.to_nat (Z.of_nat (length p) - Z.of_nat i))
    with (length p - i)%nat by lia.
  rewrite Nat2Z.id.
  rewrite (take_ge (drop i p)) by (rewrite length_drop; lia).
  unfold bind at 1. rewrite copy_in_range by lia.
  rewrite length_drop.
  replace (Nat.min (Z.to_nat (Z.of_nat (length (buf b)) - n b)) (length p - i))
    with (length p - i)%nat by lia.
  rewrite (take_ge (drop i p)) by (rewrite length_drop; lia).
  cbv [ret]. eexists. split; [reflexivity|].
  unfold buffered_records. cbn [set_n set_buf n buf t d err].
  split.
  { rewrite app_assoc. rewrite take_app_length'; [reflexivity|].
    rewrite length_app, length_take, length_drop. lia. }
  repeat split; try reflexivity.
  rewrite !length_app, length_take, !length_drop. lia.
Qed.

(** Closing a faultless buffer that holds records submits them as one
    batch and then flushes the writer. *)
Lemma Close_submits (b : CalibrationReadStreamer) (w : world W) :
  fully_succeeds ->
  err b = None ->
  0 < n b <= Z.of_nat (length (buf b)) ->
  exists b' e w',
    Close b w = Done ((b', e), w') /\
    calls w' = calls w ++ [CallWriteCalibrationBatch (buffered_records b); CallFlush].
Proof.
  intros Hok Herr Hn.
  destruct (WriteCalibrationBatch (store w) (buffered_records b)) as [st [cnt e]] eqn:Hwr.
  pose proof (Hok (store w) (buffered_records b)) as Hans.
  rewrite Hwr in Hans. cbn in Hans. simplify_eq.
  unfold Close. unfold bind at 1.
  rewrite (Flush_submits b w st _ None Herr Hn Hwr).
  assert (Hpos : (Z.of_nat (length (buffered_records b)) <? 1) = false).
  { apply Z.ltb_ge. unfold buffered_records. rewrite length_take. lia. }
  rewrite Hpos. cbn [andb]. unfold bind, wr_Flush. cbn [store calls].
  destruct (CalibrationFlush st) as [st2 e2]. cbv [ret].
  eexists _, _, _. split; [reflexivity|]. cbn [calls].
  rewrite <- app_assoc. reflexivity.
Qed.

(** WriteCalibrations follows the grid-aligned policy, and Close submits
    the window left open. *)
Lemma WriteCalibrations_follows_grid (b : CalibrationReadStreamer)
  (p : list CalibrationRead) (w : world W)
  (flushed : list (list CalibrationRead)) (a : Time)
  (open : list CalibrationRead) :
  fully_succeeds ->
  0 < d b <= maxDuration ->
  err b = None ->
  0 <= n b ->
  p <> [] ->
  n b + Z.of_nat (length p) <= Z.of_nat (length (buf b)) ->
  grid_windows (d b) (start_anchor b p) (buffered_records b) p
    = (flushed, (a, open)) ->
  exists b' w',
    WriteCalibrations b p w = Done ((b', (Z.of_nat (length p), None)), w') /\
    calls w' = calls w ++ map CallWriteCalibrationBatch flushed /\
    t b' = a /\
    buffered_records b' = open /\
    Buffered b' = Z.of_nat (length open) /\
    err b' = None /\
    exists b'' e w'',
      Close b' w' = Done ((b'', e), w'') /\
      calls w'' = calls w' ++ [CallWriteCalibrationBatch open; CallFlush].
Proof.
  intros Hok Hd Herr Hn0 Hp Hcap Hgrid.
  destruct p as [|c0 p'] eqn:Ep; [congruence|]. rewrite <- Ep in *.
  set (b0 := if n b =? 0 then resetFirstReadOfBatch b c0 else b).
  assert (Hb0 : t b0 = start_anchor b p /\ n b0 = n b /\ buf b0 = buf b /\
                d b0 = d b /\ err b0 = err b).
  { unfold b0, start_anchor. rewrite Ep. destruct (n b =? 0); cbn; auto. }
  destruct Hb0 as (Ht0 & Hn0' & Hbuf0 & Hd0 & Herr0).
  assert (Hbr0 : buffered_records b0 = buffered_records b).
  { unfold buffered_records. rewrite Hn0', Hbuf0. reflexivity. }
  assert (Hfirst : (do b1 <- (if n b =? 0
                              then do r <- index p 0%nat; ret (resetFirstReadOfBatch b r)
                              else ret b);
                    ret b1) w = Done (b0, w)).
  { unfold b0. rewrite Ep. destruct (n b =? 0); reflexivity. }
  destruct (loop_grid p Hok p 0%nat b0 0%nat w flushed a open) as
    (bl & i' & wl & Hloop & Hcalls & Ht & Hopen & Herrl & Hdl & Hlenl & Hnl & Hil & Hcapl).
  { apply drop_0. }
  { rewrite Hd0. exact Hd. }
  { congruence. }
  { lia. }
  { lia. }
  { lia. }
  { rewrite Hbuf0, Hn0'. lia. }
  { unfold b0. rewrite Ep. destruct (n b =? 0) eqn:Hz.
    - right. cbn [resetFirstReadOfBatch set_t t d].
      pose proof (Truncate_le (GetTime c0) (d b) (proj1 Hd)). lia.
    - left. apply Z.eqb_neq in Hz. lia. }
  { rewrite Hd0, Ht0, Hbr0. cbn [drop take Nat.sub]. rewrite take_0, app_nil_r.
    exact Hgrid. }
  destruct (final_copy p bl i' (Z.of_nat i') wl Hil Hnl Hcapl) as
    (b' & Hfin & Hbr' & Hn' & Ht' & Hd' & Herr' & Hlen').
  assert (Hrun : WriteCalibrations b p w
                 = Done ((b', (Z.of_nat (length p), None)), wl)).
  { unfold WriteCalibrations. unfold bind at 1.
    unfold bind at 1 in Hfirst.
    destruct ((if n b =? 0
               then do r <- index p 0%nat; ret (resetFirstReadOfBatch b r)
               else ret b) w) as [[b1 w1]|]; [|discriminate].
    cbv [ret] in Hfirst. simplify_eq.
    unfold bind at 1. change 0 with (Z.of_nat 0). rewrite Hloop.
    cbv zeta in Hfin. rewrite Hfin. do 4 f_equal. cbn [length] in *. lia. }
  assert (Hopen' : buffered_records b' = open) by congruence.
  assert (Hnopen : n b' = Z.of_nat (length open)).
  { rewrite <- Hopen'. unfold buffered_records. rewrite length_take. lia. }
  exists b', wl. split; [exact Hrun|]. split; [exact Hcalls|].
  split; [congruence|]. split; [exact Hopen'|]. split; [exact Hnopen|].
  split; [congruence|].
  assert (Hne : open <> []).
  { eapply grid_windows_open; [exact Hgrid|]. right. exact Hp. }
  rewrite <- Hopen'. apply Close_submits; [exact Hok|congruence|].
  destruct open; [congruence|]. cbn [length] in Hnopen. lia.
Qed.


End Generic.

Lemma datastore_fully_succeeds : fully_succeeds (W := datastore).
Proof. intros st q. reflexivity. Qed.


End calibration_windows.


Module calibration_capacity.
Import goint gotime slices model glukitio calibration calibration_spec writers examples.
Import calibration_flush calibration_close calibration_windows.

Lemma Sub_le (x u : Time) : 0 <= x - u -> Sub x u <= x - u.
Proof.
  unfold Sub, maxDuration, minDuration. intros H.
  destruct (Z.ltb_spec (2 ^ 63 - 1) (x - u)); [lia|].
  destruct (Z.ltb_spec (x - u) (- 2 ^ 63)); lia.
Qed.

Section Generic.
Context {W : Type} {writer : CalibrationBatchWriter W}.

(** While no record crosses the boundary the loop changes nothing. *)
Lemma loop_no_crossing (p : list CalibrationRead) (b : CalibrationReadStreamer) :
  forall rest j i nn (w : world W),
    Forall (fun c => Sub (GetTime c) (t b) < d b) rest ->
    WriteCalibrations_loop p rest j b i nn w = Done (Continue b i nn, w).
Proof.
  induction rest as [|c rest' IH]; intros j i nn w Hall.
  - reflexivity.
  - apply Forall_cons in Hall as [Hc Hall].
    cbn [WriteCalibrations_loop]. unfold bind at 1.
    rewrite body_no_crossing by (apply Z.leb_gt; exact Hc).
    apply IH. exact Hall.
Qed.

(** A write that stays in the open window and does not fit: the copy fills
    the buffer and the rest of the records is left out. *)
Lemma WriteCalibrations_truncates (b : CalibrationReadStreamer)
  (p : list CalibrationRead) (w : world W) :
  0 <= n b <= Z.of_nat (length (buf b)) ->
  Forall (fun c => Sub (GetTime c) (start_anchor b p) < d b) p ->
  Z.of_nat (length (buf b)) - n b < Z.of_nat (length p) ->
  exists b',
    WriteCalibrations b p w
      = Done ((b', (Z.of_nat (length (buf b)) - n b, None)), w) /\
    buffered_records b'
      = buffered_records b ++ take (Z.to_nat (Z.of_nat (length (buf b)) - n b)) p /\
    n b' = Z.of_nat (length (buf b)) /\
    length (buf b') = length (buf b) /\
    err b' = err b.
Proof.
  intros Hn Hall Hcap.
  destruct p as [|c0 p'] eqn:Ep; [cbn [length] in Hcap; lia|]. rewrite <- Ep in *.
  set (b0 := if n b =? 0 then resetFirstReadOfBatch b c0 else b).
  assert (Hb0 : t b0 = start_anchor b p /\ n b0 = n b /\ buf b0 = buf b /\
                d b0 = d b /\ err b0 = err b).
  { unfold b0, start_anchor. rewrite Ep. destruct (n b =? 0); cbn; auto. }
  destruct Hb0 as (Ht0 & Hn0 & Hbuf0 & Hd0 & Herr0).
  unfold WriteCalibrations. unfold bind at 1.
  assert (Hfirst : (if n b =? 0
                    then do r <- index p 0%nat; ret (resetFirstReadOfBatch b r)
                    else ret b) w = Done (b0, w)).
  { unfold b0. rewrite Ep. destruct (n b =? 0); reflexivity. }
  rewrite Hfirst. unfold bind at 1.
  rewrite loop_no_crossing by (rewrite Ht0, Hd0; exact Hall).
  unfold bind at 1. rewrite slice_in_range by lia.
  rewrite Z.sub_0_r, !Nat2Z.id, drop_0, firstn_all.
  unfold bind at 1. rewrite Hbuf0, Hn0. rewrite copy_in_range by lia.
  set (k := Nat.min (Z.to_nat (Z.of_nat (length (buf b)) - n b)) (length p)).
  assert (Hk : k = Z.to_nat (Z.of_nat (length (buf b)) - n b)) by lia.
  rewrite (drop_ge (buf b)) by lia. rewrite app_nil_r.
  cbv [ret]. eexists. split; [do 4 f_equal; lia|].
  unfold buffered_records. cbn [set_n set_buf n buf t d err].
  rewrite Herr0.
  assert (Hlen : length (take (Z.to_nat (n b)) (buf b) ++ take k p) = length (buf b)).
  { rewrite length_app, !length_take. lia. }
  split.
  { rewrite take_ge by lia. rewrite Hk. reflexivity. }
  split; [lia|]. split; [exact Hlen|reflexivity].
Qed.

(** C10 (silent capacity truncation). When the records of a write stay in
    the open window and outnumber the room left in the buffer,
    WriteCalibrations returns a count nn smaller than len(p) together with
    a nil error; it makes no call to the writer, the buffer holds what it
    held followed by the first nn records of p only, and its fault state is
    what it was: the other records are dropped. *)
Theorem silent_capacity_truncation (b : CalibrationReadStreamer)
  (p : list CalibrationRead) (w : world W) :
  0 <= n b <= Z.of_nat (length (buf b)) ->
  Forall (fun c => Sub (GetTime c) (start_anchor b p) < d b) p ->
  Z.of_nat (length (buf b)) - n b < Z.of_nat (length p) ->
  exists b' nn,
    WriteCalibrations b p w = Done ((b', (nn, None)), w) /\
    nn < Z.of_nat (length p) /\
    nn = Z.of_nat (length (buf b)) - n b /\
    buffered_records b' = buffered_records b ++ take (Z.to_nat nn) p /\
    Buffered b' = Z.of_nat (length (buf b)) /\
    err b' = err b.
Proof.
  intros Hn Hall Hcap.
  destruct (WriteCalibrations_truncates b p w Hn Hall Hcap)
    as (b' & Hrun & Hbr & Hn' & _ & Herr).
  exists b', (Z.of_nat (length (buf b)) - n b).
  repeat split; try assumption; lia.
Qed.

End Generic.

Lemma silent_capacity_truncation_witness :
  exists b' nn,
    WriteCalibrations (NewCalibrationReadStreamerDuration 3 (2 * Hour)) scenario
      (mkWorld (mkDatastore []) [])
      = Done ((b', (nn, None)), mkWorld (mkDatastore []) []) /\
    nn < Z.of_nat (length scenario) /\
    nn = Z.of_nat (length (buf (NewCalibrationReadStreamerDuration 3 (2 * Hour))))
         - n (NewCalibrationReadStreamerDuration 3 (2 * Hour)) /\
    buffered_records b'
      = buffered_records (NewCalibrationReadStreamerDuration 3 (2 * Hour))
          ++ take (Z.to_nat nn) scenario /\
    Buffered b'
      = Z.of_nat (length (buf (NewCalibrationReadStreamerDuration 3 (2 * Hour)))) /\
    err b' = err (NewCalibrationReadStreamerDuration 3 (2 * Hour)).
Proof.
  apply (silent_capacity_truncation
           (NewCalibrationReadStreamerDuration 3 (2 * Hour)) scenario
           (mkWorld (mkDatastore []) [])).
  - vm_compute. split; discriminate.
  - repeat constructor.
  - vm_compute. reflexivity.
Defined.

Lemma ticks_lookup (k i : nat) (x : CalibrationRead) :
  ticks k !! i = Some x -> GetTime x = Z.of_nat i /\ (i < k)%nat.
Proof.
  unfold ticks. rewrite list_lookup_fmap.
  destruct (seq 0 k !! i) as [m|] eqn:Hs; [|discriminate].
  apply lookup_seq in Hs as [-> Hlt]. cbn. intros [= <-]. cbn. split; [lia|exact Hlt].
Qed.

Lemma ticks_increasing (k : nat) : strictly_increasing (ticks k).
Proof.
  intros i j x y Hi Hj Hij.
  apply ticks_lookup in Hi as [-> _]. apply ticks_lookup in Hj as [-> _]. lia.
Qed.

Lemma ticks_in_window (k : nat) (dur : Duration) :
  Z.of_nat k <= dur ->
  Forall (fun c => Sub (GetTime c) 0 < dur) (ticks k).
Proof.
  intros Hk. apply Forall_lookup. intros i x Hi.
  apply ticks_lookup in Hi as [Ht Hlt]. rewrite Ht.
  pose proof (Sub_le (Z.of_nat i) 0). lia.
Qed.

(** C1 (no loss), evaluated where it fails. Whatever BUFFER_SIZE is, take
    BUFFER_SIZE + 1 records one nanosecond apart and a duration of
    BUFFER_SIZE + 1 nanoseconds: the timestamps are strictly increasing and
    the duration is positive, the store commits every batch, yet
    WriteCalibrations returns the count BUFFER_SIZE with a nil error and,
    after Close, the store has received the first BUFFER_SIZE records
    only. *)
Theorem no_loss_fails_beyond_capacity (BUFFER_SIZE : nat) :
  let p := ticks (S BUFFER_SIZE) in
  let D := Z.of_nat BUFFER_SIZE + 1 in
  strictly_increasing p /\
  0 < D /\
  exists b' w' b'' w'',
    WriteCalibrations (NewCalibrationReadStreamerDuration BUFFER_SIZE D) p
      (mkWorld (mkDatastore []) [])
      = Done ((b', (Z.of_nat BUFFER_SIZE, None)), w') /\
    Close b' w' = Done ((b'', None), w'') /\
    concat (batches (calls w'')) = take BUFFER_SIZE p /\
    (length (concat (batches (calls w''))) < length p)%nat.
Proof.
  intros p D. split; [apply ticks_increasing|]. split; [lia|].
  set (b := NewCalibrationReadStreamerDuration BUFFER_SIZE D).
  set (w := mkWorld (mkDatastore []) []).
  assert (Hlenb : length (buf b) = BUFFER_SIZE) by apply length_replicate.
  assert (Hlenp : length p = S BUFFER_SIZE).
  { unfold p, ticks. rewrite length_fmap, length_seq. reflexivity. }
  assert (Hanchor : start_anchor b p = 0).
  { unfold start_anchor, b, p, ticks. cbn [n d seq fmap list_fmap].
    cbn. unfold Truncate. destruct (D <=? 0); [reflexivity|].
    rewrite Zmod_0_l. reflexivity. }
  destruct (WriteCalibrations_truncates b p w) as (b' & Hrun & Hbr & Hn' & Hlen' & Herr').
  { rewrite Hlenb. cbn. lia. }
  { rewrite Hanchor. apply ticks_in_window. cbn [d b NewCalibrationReadStreamerDuration]. lia. }
  { rewrite Hlenb, Hlenp. cbn [n b NewCalibrationReadStreamerDuration]. lia. }
  rewrite Hlenb in Hrun, Hbr, Hn'.
  change (n b) with 0 in Hrun, Hbr. rewrite Z.sub_0_r in Hrun, Hbr.
  rewrite Nat2Z.id in Hbr. change (buffered_records b) with (@nil CalibrationRead) in Hbr.
  cbn [app] in Hbr. change (err b) with (@None error) in Herr'.
  exists b', w.
  destruct BUFFER_SIZE as [|cap].
  - (* nothing fits: Close has nothing to submit *)
    exists b', (mkWorld (mkDatastore []) [CallFlush]).
    split; [exact Hrun|]. split.
    + unfold Close. unfold bind at 1.
      rewrite (Flush_empty b' w Herr') by (rewrite Hn'; reflexivity).
      reflexivity.
    + split; [reflexivity|]. rewrite Hlenp. cbn. lia.
  - exists (set_n b' 0),
      (mkWorld (mkDatastore [take (S cap) p])
         [CallWriteCalibrationBatch (take (S cap) p); CallFlush]).
    split; [exact Hrun|]. split.
    + unfold Close. unfold bind at 1.
      rewrite (Flush_submits b' w (mkDatastore [buffered_records b'])
                 (Z.of_nat (length (buffered_records b'))) None Herr');
        [|rewrite Hn', Hlen', Hlenb; lia|reflexivity].
      rewrite Hbr. rewrite length_take, Hlenp.
      replace (Nat.min (S cap) (S (S cap))) with (S cap) by lia.
      assert (Hpos : (Z.of_nat (S cap) <? 1) = false) by (apply Z.ltb_ge; lia).
      rewrite Hpos. reflexivity.
    + clearbody p. cbn. rewrite app_nil_r, length_take, Hlenp.
      split; [reflexivity|lia].
Qed.

End calibration_capacity.


Module calibration_no_loss.
Import goint gotime slices model glukitio calibration calibration_spec writers examples.
Import calibration_flush calibration_close calibration_windows.

(** The policy loses no record and keeps the order. *)
Lemma grid_windows_partition (dur : Duration) (p : list CalibrationRead) :
  forall anchor window flushed a open,
    grid_windows dur anchor window p = (flushed, (a, open)) ->
    concat flushed ++ open = window ++ p.
Proof.
  induction p as [|c p' IH]; intros anchor window flushed a open Hgrid.
  - cbn in Hgrid. simplify_eq. cbn. rewrite app_nil_r. reflexivity.
  - cbn in Hgrid. destruct (dur <=? GetTime c - anchor).
    + destruct (grid_windows dur (Truncate (GetTime c) dur) [c] p')
        as [fl' fin] eqn:Hrec.
      simplify_eq. cbn [concat]. rewrite <- app_assoc.
      rewrite (IH _ _ _ _ _ Hrec). reflexivity.
    + rewrite (IH _ _ _ _ _ Hgrid), <- app_assoc. reflexivity.
Qed.

(** Records that all lie in one grid cell are less than the duration
    apart. *)
Lemma in_cell_spans_less (dur : Duration) (anchor : Time)
  (window : list CalibrationRead) :
  Forall (fun x => anchor <= GetTime x < anchor + dur) window ->
  spans_less dur window.
Proof.
  intros Hall x y Hx Hy.
  rewrite Forall_forall in Hall.
  pose proof (Hall x Hx). pose proof (Hall y Hy). lia.
Qed.

(** On time-ordered records every window of the policy spans less than the
    duration. *)
Lemma grid_windows_span (dur : Duration) (p : list CalibrationRead) :
  0 < dur ->
  forall anchor window flushed a open,
    grid_windows dur anchor window p = (flushed, (a, open)) ->
    nondecreasing p ->
    Forall (fun x => anchor <= GetTime x) p ->
    Forall (fun x => anchor <= GetTime x < anchor + dur) window ->
    Forall (spans_less dur) (flushed ++ [open]).
Proof.
  intros Hd. induction p as [|c p' IH];
    intros anchor window flushed a open Hgrid Hsort Hge Hwin.
  - cbn in Hgrid. simplify_eq. cbn. constructor; [|constructor].
    eapply in_cell_spans_less; eassumption.
  - apply StronglySorted_inv in Hsort as [Hsort Hc].
    apply Forall_cons in Hge as [Hgec Hge].
    cbn in Hgrid. destruct (Z.leb_spec dur (GetTime c - anchor)).
    + destruct (grid_windows dur (Truncate (GetTime c) dur) [c] p')
        as [fl' fin] eqn:Hrec.
      simplify_eq. cbn [app]. constructor.
      * eapply in_cell_spans_less; eassumption.
      * pose proof (Truncate_le (GetTime c) dur Hd) as Ht.
        eapply IH; [exact Hrec|exact Hsort| |].
        -- eapply Forall_impl; [exact Hc|]. cbn. intros y Hy. lia.
        -- constructor; [lia|constructor].
    + eapply IH; [exact Hgrid|exact Hsort|exact Hge|].
      apply Forall_app. split; [exact Hwin|]. constructor; [lia|constructor].
Qed.

Section Generic.
Context {W : Type} {writer : CalibrationBatchWriter W}.

(** X9. No loss and no duplication while the buffer has room: a new streamer
    with a positive duration is written time-ordered records, no more than
    BUFFER_SIZE of them, and closed, over a writer that commits every
    batch. The batches the writer receives, put end to end, are the records
    written, in their order, and each batch spans less than the
    duration. *)
Lemma no_loss_within_capacity (BUFFER_SIZE : nat) (D : Duration)
  (p : list CalibrationRead) (w : world W) :
  fully_succeeds ->
  0 < D <= maxDuration ->
  p <> [] ->
  nondecreasing p ->
  (length p <= BUFFER_SIZE)%nat ->
  exists b' w' b'' e w'',
    WriteCalibrations (NewCalibrationReadStreamerDuration BUFFER_SIZE D) p w
      = Done ((b', (Z.of_nat (length p), None)), w') /\
    Close b' w' = Done ((b'', e), w'') /\
    (exists received,
       calls w'' = calls w ++ map CallWriteCalibrationBatch received ++ [CallFlush] /\
       concat received = p /\
       Forall (spans_less D) received).
Proof.
  intros Hok Hd Hp Hsort Hcap.
  set (b := NewCalibrationReadStreamerDuration BUFFER_SIZE D).
  destruct (grid_windows (d b) (start_anchor b p) (buffered_records b) p)
    as [flushed [a open]] eqn:Hgrid.
  destruct (WriteCalibrations_follows_grid b p w flushed a open Hok Hd eq_refl)
    as (b' & w' & Hrun & Hcalls & _ & _ & _ & _ & b'' & e & w'' & Hclose & Hcalls');
    [cbn; lia|exact Hp| |exact Hgrid|].
  { cbn [b NewCalibrationReadStreamerDuration n buf]. rewrite length_replicate. lia. }
  exists b', w', b'', e, w''. split; [exact Hrun|]. split; [exact Hclose|].
  exists (flushed ++ [open]). split.
  { rewrite Hcalls', Hcalls, map_app. cbn [map]. rewrite <- !app_assoc. reflexivity. }
  change (buffered_records b) with (@nil CalibrationRead) in Hgrid.
  change (d b) with D in Hgrid.
  split.
  { rewrite concat_app. cbn [concat]. rewrite app_nil_r.
    apply (grid_windows_partition _ _ _ _ _ _ _ Hgrid). }
  destruct p as [|c0 p']; [congruence|].
  eapply grid_windows_span; [exact (proj1 Hd)|exact Hgrid|exact Hsort| |constructor].
  change (start_anchor b (c0 :: p')) with (Truncate (GetTime c0) D).
  pose proof (Truncate_le (GetTime c0) D (proj1 Hd)) as Ht.
  apply StronglySorted_inv in Hsort as [_ Hc].
  constructor; [lia|].
  eapply Forall_impl; [exact Hc|]. cbn. intros y Hy. lia.
Qed.

End Generic.

End calibration_no_loss.


(** * Properties of MealStreamer *)

Module meal_properties.
Import goint gotime slices model glukitio container meal meal_spec writers examples.

Lemma ListToArrayOfMealReads_all {S : Type} (l : ImmutableList) (w : S) :
  ListToArrayOfMealReads l (length l) w = Done (l, w).
Proof.
  induction l as [|x l IH]; [reflexivity|].
  cbn [ListToArrayOfMealReads length]. unfold bind. rewrite IH. reflexivity.
Qed.

Section Generic.
Context {W : Type} {writer : MealBatchWriter W}.

(** What Flush does. *)
Lemma Flush_run (b : MealStreamer W) (w : world) :
  Flush b w =
    match head b with
    | [] => Done ((Some (newMealStreamerDuration [] None (wr b) (d b)), None), w)
    | _ :: _ =>
      let w' := mkWorld (cells w) (calls w ++ [CallWriteMealBatch (rev (head b))]) in
      match WriteMealBatch (wr b) (rev (head b)) with
      | (_, Some e) => Done ((None, Some e), w')
      | (innerWriter, None) =>
        Done ((Some (newMealStreamerDuration [] None innerWriter (d b)), None), w')
      end
    end.
Proof.
  unfold Flush, ReverseList. unfold bind at 1.
  rewrite <- (length_rev (head b)) at 1.
  rewrite ListToArrayOfMealReads_all.
  destruct (head b) as [|x l] eqn:Hh; [reflexivity|].
  assert (Hlen : (0 <? length (rev (x :: l)))%nat = true).
  { apply Nat.ltb_lt. rewrite length_rev. cbn. lia. }
  rewrite Hlen. unfold bind, wr_WriteMealBatch.
  destruct (WriteMealBatch (wr b) (rev (x :: l))) as [iw [e|]]; reflexivity.
Qed.

(** C4, amended (failed flush). When the batch write of a non-empty window
    fails, Flush submits the whole window, oldest record first, and returns
    the nil streamer with the error of the writer: no new state is made.
    The streamer [b] is as it was and still holds the whole window. *)
Theorem failed_flush_terminal (b : MealStreamer W) (w : world) (wr' : W)
  (e : error) :
  head b <> [] ->
  WriteMealBatch (wr b) (rev (head b)) = (wr', Some e) ->
  let w' := mkWorld (cells w) (calls w ++ [CallWriteMealBatch (rev (head b))]) in
  Flush b w = Done ((None, Some e), w') /\
  observe b w' = observe b w.
Proof.
  intros Hne Hwr w'. rewrite Flush_run. destruct (head b) as [|x l] eqn:Hh; [congruence|].
  rewrite Hwr. split; [reflexivity|]. unfold observe. rewrite Hh. reflexivity.
Qed.

(** The iteration variable, under either semantics: its cell holds the
    record, and no cell below [len0] is touched. *)
Lemma loopvar_next_spec (lv : loopvar) (a : nat) (x : Meal) (w : world)
  (len0 : nat) :
  (lv = PerLoop -> (len0 <= a < length (cells w))%nat) ->
  (len0 <= length (cells w))%nat ->
  exists a' w',
    loopvar_next lv a x w = Done (a', w') /\
    cells w' !! a' = Some x /\
    (len0 <= a' < length (cells w'))%nat /\
    (length (cells w) <= length (cells w'))%nat /\
    (forall i, (i < len0)%nat -> cells w' !! i = cells w !! i) /\
    calls w' = calls w.
Proof.
  intros Ha Hlen. destruct lv.
  - destruct (Ha eq_refl) as [Ha1 Ha2].
    exists a, (mkWorld (<[a := x]> (cells w)) (calls w)).
    split; [reflexivity|]. cbn [cells calls].
    rewrite length_insert.
    split; [apply list_lookup_insert_eq; exact Ha2|].
    repeat split; try lia.
    intros i Hi. apply list_lookup_insert_ne. lia.
  - exists (length (cells w)), (mkWorld (cells w ++ [x]) (calls w)).
    split; [reflexivity|]. cbn [cells calls].
    rewrite length_app. cbn [length].
    split; [rewrite lookup_app_r by lia; rewrite Nat.sub_diag; reflexivity|].
    repeat split; try lia.
    intros i Hi. apply lookup_app_l. lia.
Qed.

(** The loop of WriteMeals returns, and touches no cell below [len0]. *)
Lemma loop_frame (lv : loopvar) (len0 : nat) :
  forall rest (s : MealStreamer W) (w : world) (a : nat),
    (lv = PerLoop -> (len0 <= a < length (cells w))%nat) ->
    (len0 <= length (cells w))%nat ->
    well_formed s w ->
    exists r w',
      WriteMeals_loop lv a rest s w = Done (r, w') /\
      (forall i, (i < len0)%nat -> cells w' !! i = cells w !! i) /\
      (length (cells w) <= length (cells w'))%nat /\
      returned r w'.
Proof.
  induction rest as [|x rest' IH]; intros s w a Ha Hlen Hwf.
  - exists (Some s, None), w. cbn. auto.
  - destruct (loopvar_next_spec lv a x w len0 Ha Hlen)
      as (a' & w1 & Hnext & Hcell & Ha' & Hgrow & Hkeep & Hcalls).
    cbn [WriteMeals_loop]. unfold bind at 1. rewrite Hnext.
    unfold bind at 1. unfold deref at 1. rewrite Hcell.
    assert (Hlen1 : (len0 <= length (cells w1))%nat) by lia.
    assert (Ha1 : lv = PerLoop -> (len0 <= a' < length (cells w1))%nat) by auto.
    assert (Hnew : forall (wr0 : W) (d0 : Duration),
               well_formed (newMealStreamerDuration (NewImmutableList [] x)
                              (Some a') wr0 d0) w1).
    { intros wr0 d0. unfold well_formed. cbn. lia. }
    assert (Hthen : forall s1, well_formed s1 w1 ->
               exists r w',
                 WriteMeals_loop lv a' rest' s1 w1 = Done (r, w') /\
                 (forall i, (i < len0)%nat -> cells w' !! i = cells w !! i) /\
                 (length (cells w) <= length (cells w'))%nat /\
                 returned r w').
    { intros s1 Hwf1.
      destruct (IH s1 w1 a' Ha1 Hlen1 Hwf1) as (r & w' & Hrun & Hk & Hg & Hr).
      exists r, w'. split; [exact Hrun|]. split.
      - intros i Hi. rewrite Hk by exact Hi. apply Hkeep. exact Hi.
      - split; [lia|exact Hr]. }
    destruct (head s) as [|y l] eqn:Hh.
    + apply Hthen. apply Hnew.
    + unfold well_formed in Hwf. rewrite Hh in Hwf.
      destruct (tailVal s) as [a0|] eqn:Htv; [|discriminate].
      assert (Ha0 : (a0 < length (cells w1))%nat) by lia.
      destruct (lookup_lt_is_Some_2 _ _ Ha0) as [tv Htvc].
      unfold bind at 1. unfold deref at 1. rewrite Htvc.
      destruct (d s <=? Sub (GetTime x) (GetTime tv)).
      * unfold bind at 1. rewrite Flush_run, Hh. cbv zeta.
        destruct (WriteMealBatch (wr s) (rev (y :: l))) as [iw [e|]].
        -- exists (None, Some e),
             (mkWorld (cells w1) (calls w1 ++ [CallWriteMealBatch (rev (y :: l))])).
           split; [reflexivity|]. cbn [cells]. split; [exact Hkeep|].
           split; [lia|exact I].
        -- set (w2 := mkWorld (cells w1) _).
           destruct (IH (newMealStreamerDuration (NewImmutableList [] x) (Some a')
                           iw (d s)) w2 a' Ha1 Hlen1 (Hnew iw (d s)))
             as (r & w' & Hrun & Hk & Hg & Hr).
           exists r, w'. split; [exact Hrun|]. split.
           ++ intros i Hi. rewrite Hk by exact Hi. apply Hkeep. exact Hi.
           ++ split; [cbn [cells w2] in Hg; lia|exact Hr].
      * apply Hthen. unfold well_formed. cbn. exact Ha0.
Qed.

(** WriteMeals returns, under either semantics of the iteration variable,
    and leaves the cells of its world as they were. *)
Lemma WriteMeals_frame (lv : loopvar) (s : MealStreamer W) (p : list Meal)
  (w : world) :
  well_formed s w ->
  exists r w',
    WriteMeals_with lv s p w = Done (r, w') /\
    (forall i, (i < length (cells w))%nat -> cells w' !! i = cells w !! i) /\
    returned r w'.
Proof.
  intros Hwf. unfold WriteMeals_with. unfold bind at 1.
  assert (Hs : forall w0, (length (cells w) <= length (cells w0))%nat ->
             well_formed (newMealStreamerDuration (head s) (tailVal s) (wr s) (d s)) w0).
  { intros w0 Hle. unfold well_formed in *. cbn.
    destruct (tailVal s); [lia|exact Hwf]. }
  destruct lv; cbn [loopvar_enter].
  - unfold alloc. set (w0 := mkWorld (cells w ++ [zeroMeal]) (calls w)).
    assert (Hlen0 : length (cells w0) = S (length (cells w))).
    { cbn. rewrite length_app. cbn. lia. }
    destruct (loop_frame PerLoop (length (cells w)) p
                (newMealStreamerDuration (head s) (tailVal s) (wr s) (d s))
                w0 (length (cells w)))
      as (r & w' & Hrun & Hk & Hg & Hr); try lia.
    + apply Hs. lia.
    + exists r, w'. split; [exact Hrun|]. split; [|exact Hr].
      intros i Hi. rewrite Hk by exact Hi. cbn. apply lookup_app_l. exact Hi.
  - cbv [ret].
    destruct (loop_frame PerIteration (length (cells w)) p
                (newMealStreamerDuration (head s) (tailVal s) (wr s) (d s))
                w 0%nat)
      as (r & w' & Hrun & Hk & Hg & Hr); try lia.
    + discriminate.
    + apply Hs. lia.
    + exists r, w'. auto.
Qed.

(** C8 (snapshot immutability). WriteMeals and WriteMeal on a streamer s
    return, with a streamer and no error, or with the nil streamer and the
    error of a failed flush; every cell of the world is as it was before
    the call, so that a caller holding s sees through it the same list, the
    same record behind [tailVal] and the same buffered records as
    before. *)
Theorem WriteMeals_snapshot (s : MealStreamer W) (p : list Meal) (c : Meal)
  (w : world) :
  well_formed s w ->
  (exists r w',
     WriteMeals s p w = Done (r, w') /\
     (forall i, (i < length (cells w))%nat -> cells w' !! i = cells w !! i) /\
     observe s w' = observe s w /\
     returned r w') /\
  (exists r w',
     WriteMeal s c w = Done (r, w') /\
     (forall i, (i < length (cells w))%nat -> cells w' !! i = cells w !! i) /\
     observe s w' = observe s w /\
     returned r w').
Proof.
  intros Hwf.
  assert (Hany : forall q, exists r w',
             WriteMeals s q w = Done (r, w') /\
             (forall i, (i < length (cells w))%nat -> cells w' !! i = cells w !! i) /\
             observe s w' = observe s w /\
             returned r w').
  { intros q. destruct (WriteMeals_frame PerLoop s q w Hwf) as (r & w' & Hrun & Hk & Hr).
    exists r, w'. split; [exact Hrun|]. split; [exact Hk|]. split; [|exact Hr].
    unfold observe. unfold well_formed in Hwf.
    destruct (tailVal s) as [a|]; [|reflexivity]. rewrite Hk by exact Hwf. reflexivity. }
  split; [apply Hany|apply (Hany [c])].
Qed.

(** With an iteration variable of its own for each iteration, the loop of
    WriteMeals follows the first-arrival policy of the specification. *)
Lemma loop_first_arrival :
  never_fails ->
  forall rest (s : MealStreamer W) (w : world) (a : nat) flushed open,
    0 < d s <= maxDuration ->
    anchored s w ->
    first_arrival_windows (d s) (rev (head s)) rest = (flushed, open) ->
    exists s' w',
      WriteMeals_loop PerIteration a rest s w = Done ((Some s', None), w') /\
      calls w' = calls w ++ map CallWriteMealBatch flushed /\
      rev (head s') = open /\
      anchored s' w' /\
      d s' = d s.
Proof.
  intros Hok. induction rest as [|x rest' IH];
    intros s w a flushed open Hd Hanc Hpol.
  - cbn in Hpol. simplify_eq. exists s, w. cbn [WriteMeals_loop map].
    rewrite app_nil_r. auto.
  - cbn [WriteMeals_loop loopvar_next]. unfold bind at 1. unfold alloc.
    set (w1 := mkWorld (cells w ++ [x]) (calls w)).
    assert (Hcell : cells w1 !! length (cells w) = Some x).
    { cbn. rewrite lookup_app_r by lia. rewrite Nat.sub_diag. reflexivity. }
    unfold bind at 1. unfold deref at 1. rewrite Hcell.
    assert (Hnew : forall (wr0 : W) (w2 : world),
               cells w2 = cells w1 ->
               anchored (newMealStreamerDuration (NewImmutableList [] x)
                           (Some (length (cells w))) wr0 (d s)) w2).
    { intros wr0 w2 Hc. unfold anchored. cbn [head newMealStreamerDuration NewImmutableList].
      exists (length (cells w)), x. rewrite Hc. auto. }
    unfold anchored in Hanc. cbn [first_arrival_windows] in Hpol.
    destruct (head s) as [|y l] eqn:Hh.
    + cbn [rev] in Hpol.
      destruct (IH (newMealStreamerDuration (NewImmutableList [] x)
                      (Some (length (cells w))) (wr s) (d s))
                  w1 (length (cells w)) flushed open Hd (Hnew _ _ eq_refl) Hpol)
        as (s' & w' & Hrun & Hrest).
      exists s', w'. split; [exact Hrun|exact Hrest].
    + destruct Hanc as (a0 & first & Htv & Hc0 & Hlast).
      apply last_Some in Hlast as [l' Hl'].
      assert (Hrev : rev (y :: l) = first :: rev l').
      { rewrite Hl'. apply rev_unit. }
      rewrite Hrev in Hpol.
      assert (Hc1 : cells w1 !! a0 = Some first).
      { cbn. apply lookup_app_l_Some. exact Hc0. }
      rewrite Htv. unfold bind at 1. unfold deref at 1. rewrite Hc1.
      rewrite (calibration_windows.Sub_crossing _ _ _ Hd).
      change (@GetTime Meal _ x) with (Meal_time x) in *.
      change (@GetTime Meal _ first) with (Meal_time first) in *.
      destruct (d s <=? Meal_time x - Meal_time first).
      * destruct (first_arrival_windows (d s) [x] rest') as [fl' open'] eqn:Hrec.
        simplify_eq.
        unfold bind at 1. rewrite Flush_run, Hh. cbv zeta.
        pose proof (Hok (wr s) (rev (y :: l))) as Hans.
        destruct (WriteMealBatch (wr s) (rev (y :: l))) as [iw e]. cbn in Hans. subst e.
        set (w2 := mkWorld (cells w1) _).
        destruct (IH (newMealStreamerDuration (NewImmutableList [] x)
                        (Some (length (cells w))) iw (d s))
                    w2 (length (cells w)) fl' open Hd (Hnew _ _ eq_refl) Hrec)
          as (s' & w' & Hrun & Hcalls & Hrest).
        exists s', w'. split; [exact Hrun|]. split; [|exact Hrest].
        rewrite Hcalls. cbn [calls w2 w1 map]. rewrite Hrev, <- app_assoc. reflexivity.
      * rewrite <- Hrev in Hpol.
        destruct (IH (newMealStreamerDuration (NewImmutableList (y :: l) x)
                        (Some a0) (wr s) (d s))
                    w1 (length (cells w)) flushed open Hd) as (s' & w' & Hrun & Hrest).
        { unfold anchored. cbn [head newMealStreamerDuration NewImmutableList].
          exists a0, first. split; [reflexivity|]. split; [exact Hc1|].
          unfold NewImmutableList. rewrite Hl'.
          change (x :: l' ++ [first]) with ((x :: l') ++ [first]).
          apply last_snoc. }
        { exact Hpol. }
        exists s', w'. split; [exact Hrun|exact Hrest].
Qed.

(** A write of one record is the same under either semantics of the
    iteration variable. *)
Lemma WriteMeals_one_record (s : MealStreamer W) (c : Meal) (w : world) :
  WriteMeals_with PerLoop s [c] w = WriteMeals_with PerIteration s [c] w.
Proof.
  unfold WriteMeals_with, bind, loopvar_enter, alloc, ret.
  cbn [WriteMeals_loop loopvar_next].
  unfold bind, assign, alloc, ret. cbn [cells calls].
  rewrite insert_app_r_alt by lia. rewrite Nat.sub_diag. cbn [insert list_insert].
  reflexivity.
Qed.

(** First-arrival anchoring holds for a write of one record, and for a
    write of any number of records when each iteration has a variable of
    its own: over a writer that never fails, from a streamer whose anchor
    holds the first record of its window, the writer is submitted exactly
    the windows the policy flushes and the streamer returned holds the
    window the policy leaves open, again anchored at its first record. *)
Lemma first_arrival_refinement (s : MealStreamer W) (p : list Meal)
  (c : Meal) (w : world) :
  never_fails ->
  0 < d s <= maxDuration ->
  anchored s w ->
  (forall flushed open,
     first_arrival_windows (d s) (rev (head s)) p = (flushed, open) ->
     exists s' w',
       WriteMeals_with PerIteration s p w = Done ((Some s', None), w') /\
       calls w' = calls w ++ map CallWriteMealBatch flushed /\
       rev (head s') = open /\ anchored s' w') /\
  (forall flushed open,
     first_arrival_windows (d s) (rev (head s)) [c] = (flushed, open) ->
     exists s' w',
       WriteMeal s c w = Done ((Some s', None), w') /\
       calls w' = calls w ++ map CallWriteMealBatch flushed /\
       rev (head s') = open /\ anchored s' w').
Proof.
  intros Hok Hd Hanc.
  assert (Hany : forall q flushed open,
             first_arrival_windows (d s) (rev (head s)) q = (flushed, open) ->
             exists s' w',
               WriteMeals_with PerIteration s q w = Done ((Some s', None), w') /\
               calls w' = calls w ++ map CallWriteMealBatch flushed /\
               rev (head s') = open /\ anchored s' w').
  { intros q flushed open Hpol. unfold WriteMeals_with. unfold bind at 1.
    cbn [loopvar_enter]. cbv [ret].
    destruct (loop_first_arrival Hok q
                (newMealStreamerDuration (head s) (tailVal s) (wr s) (d s))
                w 0%nat flushed open Hd Hanc Hpol)
      as (s' & w' & Hrun & Hcalls & Hopen & Hanc' & _).
    exists s', w'. auto. }
  split; [apply Hany|].
  intros flushed open Hpol. unfold WriteMeal, WriteMeals.
  rewrite WriteMeals_one_record. apply Hany. exact Hpol.
Qed.

End Generic.

Lemma WriteMeals_snapshot_witness :
  let s := two_meals meal_reliable in
  (exists r w',
     WriteMeals s meal_scenario one_cell = Done (r, w') /\
     (forall i, (i < length (cells one_cell))%nat ->
                cells w' !! i = cells one_cell !! i) /\
     observe s w' = observe s one_cell /\
     returned r w') /\
  (exists r w',
     WriteMeal s m0100 one_cell = Done (r, w') /\
     (forall i, (i < length (cells one_cell))%nat ->
                cells w' !! i = cells one_cell !! i) /\
     observe s w' = observe s one_cell /\
     returned r w').
Proof.
  apply (WriteMeals_snapshot (two_meals meal_reliable) meal_scenario m0100 one_cell).
  vm_compute. constructor.
Defined.

Lemma failed_flush_terminal_witness :
  let b := two_meals meal_failing in
  let w' := mkWorld (cells one_cell)
              (calls one_cell ++ [CallWriteMealBatch (rev (head b))]) in
  Flush b one_cell = Done ((None, Some (ErrStore 1)), w') /\
  observe b w' = observe b one_cell.
Proof.
  apply (failed_flush_terminal (two_meals meal_failing) one_cell meal_reliable
           (ErrStore 1)).
  - discriminate.
  - reflexivity.
Defined.

(** C4, counterexample. The window [m0000; m0030] is flushed to a writer
    that fails: Flush returns the nil streamer. *)
Lemma failed_flush_recoverable_spec_fails :
  ~ failed_flush_recoverable_spec (two_meals meal_failing) one_cell.
Proof.
  intros Hspec.
  destruct (Hspec ltac:(discriminate) meal_reliable (ErrStore 1) eq_refl)
    as (s' & w' & Hflush & _).
  vm_compute in Hflush. discriminate.
Qed.

(** C6 (first-arrival anchoring), evaluated where it fails. The four
    records of the scenario are written in one call with a duration of one
    hour. The policy of the specification flushes [00:00, 00:30] when 01:00
    arrives. WriteMeals makes no call to the writer: [tailVal] is the
    address of the iteration variable, which holds the record at hand, so
    the test compares each record with itself. All four records end up in
    one window, the anchor reads 01:30, and Close submits the four records
    as one batch. *)
Theorem first_arrival_fails_in_one_call :
  first_arrival_windows Hour [] meal_scenario
    = ([[m0000; m0030]], [m0100; m0130]) /\
  exists s w1 g w2,
    WriteMeals (NewMealStreamerDuration meal_reliable Hour) meal_scenario no_cell
      = Done ((Some s, None), w1) /\
    calls w1 = [] /\
    rev (head s) = meal_scenario /\
    tailVal s = Some 0%nat /\
    cells w1 !! 0%nat = Some m0130 /\
    Close s w1 = Done ((Some g, None), w2) /\
    calls w2 = [CallWriteMealBatch meal_scenario; CallFlush].
Proof.
  split; [reflexivity|].
  exists (mkStreamer [m0130; m0100; m0030; m0000] (Some 0%nat) meal_reliable Hour),
    (mkWorld [m0130] []),
    (mkStreamer [] None meal_reliable Hour),
    (mkWorld [m0130] [CallWriteMealBatch meal_scenario; CallFlush]).
  repeat split; vm_compute; reflexivity.
Qed.

(** With an iteration variable of its own for each iteration, the same
    call follows the policy: [00:00, 00:30] is flushed at 01:00 and the
    window left open is [01:00, 01:30], anchored at 01:00. *)
Example first_arrival_per_iteration :
  exists s w1,
    WriteMeals_with PerIteration (NewMealStreamerDuration meal_reliable Hour)
      meal_scenario no_cell = Done ((Some s, None), w1) /\
    calls w1 = [CallWriteMealBatch [m0000; m0030]] /\
    rev (head s) = [m0100; m0130] /\
    (exists a, tailVal s = Some a /\ cells w1 !! a = Some m0100).
Proof.
  exists (mkStreamer [m0130; m0100] (Some 2%nat) meal_reliable Hour),
    (mkWorld meal_scenario [CallWriteMealBatch [m0000; m0030]]).
  repeat split; try (vm_compute; reflexivity).
  exists 2%nat. split; reflexivity.
Qed.

(** Written one record per call, the scenario follows the policy too. *)
Example first_arrival_one_record_per_call :
  match WriteMeal_each (Some (NewMealStreamerDuration meal_reliable Hour))
          meal_scenario no_cell with
  | Done ((Some s, None), w) =>
    calls w = [CallWriteMealBatch [m0000; m0030]] /\
    rev (head s) = [m0100; m0130]
  | _ => False
  end.
Proof. vm_compute. split; reflexivity. Qed.

End meal_properties.


(** * Closing twice *)

Module close_twice.
Import goint gotime slices model glukitio container writers examples.

Section Meal.
Context {W : Type} {writer : MealBatchWriter W}.

(** The streamer a completed close returns holds no window. *)
Lemma meal_Close_completed (s g : meal.MealStreamer W) (w w1 : meal.world) :
  meal.Close s w = Done ((Some g, None), w1) ->
  meal.head g = [] /\ meal.tailVal g = None.
Proof.
  unfold meal.Close. unfold bind at 1. rewrite meal_properties.Flush_run.
  destruct (meal.head s) as [|x l].
  - unfold bind, meal.wr_Flush. cbn.
    destruct (MealFlush (meal.wr s)) as [iw [e|]]; cbv [ret]; intros Heq;
      simplify_eq. auto.
  - cbv zeta. destruct (WriteMealBatch (meal.wr s) (rev (x :: l))) as [iw [e|]].
    + cbv [ret]. discriminate.
    + unfold bind, meal.wr_Flush. cbn.
      destruct (MealFlush iw) as [iw2 [e|]]; cbv [ret]; intros Heq;
        simplify_eq. auto.
Qed.

(** Close on a streamer that holds no window: one flush of the writer. *)
Lemma meal_Close_empty (g : meal.MealStreamer W) (w1 : meal.world) :
  meal.head g = [] -> meal.tailVal g = None ->
  exists r,
    meal.Close g w1
      = Done ((r, (MealFlush (meal.wr g)).2),
              meal.mkWorld (meal.cells w1) (meal.calls w1 ++ [meal.CallFlush])).
Proof.
  intros Hh Ht. unfold meal.Close. unfold bind at 1.
  rewrite meal_properties.Flush_run, Hh.
  unfold bind, meal.wr_Flush. cbn.
  destruct (MealFlush (meal.wr g)) as [iw [e|]]; cbv [ret]; eexists; reflexivity.
Qed.

Lemma meal_batches_app (cs cs' : list meal.call) :
  meal_spec.batches (cs ++ cs') = meal_spec.batches cs ++ meal_spec.batches cs'.
Proof. unfold meal_spec.batches. apply omap_app. Qed.

End Meal.

(** C7, amended (closing twice). After a close that returned no error, a
    second close submits no batch: the flush of the buffer is a no-op, and
    the only call the writer receives is its own flush. The second close
    returns what that flush of the writer returns, so no error when the
    writer's flush succeeds. For MealStreamer the buffer after the close is
    the streamer the close returned. *)
Theorem close_twice_submits_nothing
  {WC : Type} {cw : CalibrationBatchWriter WC}
  {WM : Type} {mw : MealBatchWriter WM}
  (b b1 : calibration.CalibrationReadStreamer) (w w1 : calibration.world WC)
  (s g : meal.MealStreamer WM) (v v1 : meal.world) :
  calibration.Close b w = Done ((b1, None), w1) ->
  meal.Close s v = Done ((Some g, None), v1) ->
  (exists w2,
     calibration.Close b1 w1
       = Done ((b1, (CalibrationFlush (calibration.store w1)).2), w2) /\
     calibration.calls w2 = calibration.calls w1 ++ [calibration.CallFlush] /\
     calibration_spec.batches (calibration.calls w2)
       = calibration_spec.batches (calibration.calls w1)) /\
  (exists r v2,
     meal.Close g v1 = Done ((r, (MealFlush (meal.wr g)).2), v2) /\
     meal.calls v2 = meal.calls v1 ++ [meal.CallFlush] /\
     meal_spec.batches (meal.calls v2) = meal_spec.batches (meal.calls v1)).
Proof.
  intros HC HM. split.
  - eexists. split; [apply (calibration_close.Close_again b b1 w w1 HC)|].
    cbn [calibration.calls]. split; [reflexivity|].
    rewrite calibration_close.batches_app. cbn. apply app_nil_r.
  - apply meal_Close_completed in HM as [Hh Ht].
    destruct (meal_Close_empty g v1 Hh Ht) as [r Hr].
    eexists r, _. split; [exact Hr|]. cbn [meal.calls]. split; [reflexivity|].
    rewrite meal_batches_app. cbn. apply app_nil_r.
Qed.

Lemma close_twice_submits_nothing_witness :
  let b := two_buffered in
  let w := calibration.mkWorld (mkDatastore []) [] in
  let b1 := calibration.set_n two_buffered 0 in
  let w1 := calibration.mkWorld
              (mkDatastore [calibration.buffered_records two_buffered])
              [calibration.CallWriteCalibrationBatch
                 (calibration.buffered_records two_buffered);
               calibration.CallFlush] in
  let g := meal.NewMealStreamerDuration meal_reliable gotime.Hour in
  let v1 := meal.mkWorld [m0000]
              [meal.CallWriteMealBatch [m0000; m0030]; meal.CallFlush] in
  (exists w2,
     calibration.Close b1 w1
       = Done ((b1, (CalibrationFlush (calibration.store w1)).2), w2) /\
     calibration.calls w2 = calibration.calls w1 ++ [calibration.CallFlush] /\
     calibration_spec.batches (calibration.calls w2)
       = calibration_spec.batches (calibration.calls w1)) /\
  (exists r v2,
     meal.Close g v1 = Done ((r, (MealFlush (meal.wr g)).2), v2) /\
     meal.calls v2 = meal.calls v1 ++ [meal.CallFlush] /\
     meal_spec.batches (meal.calls v2) = meal_spec.batches (meal.calls v1)).
Proof.
  intros b w b1 w1 g v1.
  apply (close_twice_submits_nothing b b1 w w1
           (two_meals meal_reliable) g one_cell v1); reflexivity.
Defined.

End close_twice.


(** * Further properties of CalibrationReadStreamer *)

Module calibration_more.
Import goint gotime slices model glukitio calibration calibration_spec writers examples.
Import calibration_more_spec.
Import calibration_flush calibration_close calibration_windows calibration_capacity.
Import calibration_no_loss.

Section Generic.
Context {W : Type} {writer : CalibrationBatchWriter W}.

(** X1. Flush returns the fault state it leaves in the buffer and keeps the
    capacity, the anchor and the duration. It either does nothing (the
    buffer is faulted or empty) or calls the writer exactly once, with the
    buffered records as the batch; it never calls the writer's Flush. *)
Theorem Flush_effects (b : CalibrationReadStreamer) (w : world W) :
  0 <= n b <= Z.of_nat (length (buf b)) ->
  exists b' e w',
    Flush b w = Done ((b', e), w') /\
    err b' = e /\
    length (buf b') = length (buf b) /\
    t b' = t b /\
    d b' = d b /\
    ((w' = w /\ b' = b /\ (err b <> None \/ n b = 0)) \/
     (err b = None /\ 0 < n b /\
      calls w' = calls w ++ [CallWriteCalibrationBatch (buffered_records b)] /\
      store w' = (WriteCalibrationBatch (store w) (buffered_records b)).1)).
Proof.
  intros Hn. destruct (err b) as [e0|] eqn:Herr.
  - exists b, (Some e0), w. unfold Flush. rewrite Herr.
    split; [reflexivity|]. split; [reflexivity|]. split; [reflexivity|].
    split; [reflexivity|]. split; [reflexivity|].
    left. split; [reflexivity|]. split; [reflexivity|]. left. discriminate.
  - destruct (Z.eq_dec (n b) 0) as [Hz|Hz].
    + exists b, None, w. rewrite (Flush_empty b w Herr Hz).
      split; [reflexivity|]. split; [exact Herr|]. split; [reflexivity|].
      split; [reflexivity|]. split; [reflexivity|].
      left. split; [reflexivity|]. split; [reflexivity|]. right. exact Hz.
    + destruct (WriteCalibrationBatch (store w) (buffered_records b))
        as [st [c e]] eqn:Hwr.
      assert (Hn' : 0 < n b <= Z.of_nat (length (buf b))) by lia.
      rewrite (Flush_submits b w st c e Herr Hn' Hwr).
      destruct (if (c <? 1) && (if e is None then true else false)
                then Some ErrShortWrite else e) as [e'|].
      * eexists _, _, _. split; [reflexivity|]. cbn [err buf t d calls store].
        split; [reflexivity|]. split.
        { destruct ((0 <? c) && (c <? n b)) eqn:Hc; [|reflexivity].
          apply andb_true_iff in Hc as [Hc1 Hc2].
          apply Z.ltb_lt in Hc1, Hc2.
          rewrite length_app, length_take, !length_drop. lia. }
        split; [reflexivity|]. split; [reflexivity|].
        right. split; [reflexivity|]. split; [lia|]. split; reflexivity.
      * eexists _, _, _. split; [reflexivity|]. cbn [err buf t d calls store set_n].
        split; [exact Herr|]. split; [reflexivity|]. split; [reflexivity|].
        split; [reflexivity|].
        right. split; [reflexivity|]. split; [lia|]. split; reflexivity.
Qed.

(** X2. A nil error with a count of one or more is a full commit, whatever
    the count: the buffer is emptied and no fault is recorded, also when
    the count is less than the number of records submitted. *)
Theorem Flush_nil_error_commits (b : CalibrationReadStreamer) (w : world W)
  (st : W) (c : Z) :
  err b = None ->
  0 < n b <= Z.of_nat (length (buf b)) ->
  WriteCalibrationBatch (store w) (buffered_records b) = (st, (c, None)) ->
  1 <= c ->
  exists b',
    Flush b w
      = Done ((b', None),
              mkWorld st (calls w ++ [CallWriteCalibrationBatch (buffered_records b)])) /\
    Buffered b' = 0 /\
    buffered_records b' = [] /\
    err b' = None /\
    buf b' = buf b.
Proof.
  intros Herr Hn Hwr Hc.
  rewrite (Flush_submits b w st c None Herr Hn Hwr).
  replace (c <? 1) with false by (symmetry; apply Z.ltb_ge; exact Hc).
  cbn [andb]. exists (set_n b 0). split; [reflexivity|].
  unfold Buffered, buffered_records. cbn [set_n n buf err].
  repeat split; auto.
Qed.

(** While the count of buffered records is negative, the loop of
    WriteCalibrations panics or leaves everything as it is. *)
Lemma loop_negative (p : list CalibrationRead) (b : CalibrationReadStreamer) :
  n b < 0 ->
  forall rest j i nn (w : world W),
    WriteCalibrations_loop p rest j b i nn w = Panic \/
    WriteCalibrations_loop p rest j b i nn w = Done (Continue b i nn, w).
Proof.
  intros Hneg. induction rest as [|c rest' IH]; intros j i nn w.
  - right. reflexivity.
  - cbn [WriteCalibrations_loop]. unfold bind at 1.
    unfold WriteCalibrations_body.
    destruct (d b <=? Sub (GetTime c) (t b)).
    + left. unfold bind at 1.
      destruct (slice p (Z.of_nat i) (Z.of_nat j) w) as [[src w1]|]; [|reflexivity].
      unfold bind at 1. unfold copy, in_range.
      replace (0 <=? n b) with false by (symmetry; apply Z.leb_gt; exact Hneg).
      reflexivity.
    + cbv [ret]. apply IH.
Qed.

(** X3. Flush takes the count of the writer as it is. When the writer
    reports an error with a count larger than the number of records
    submitted, the flush leaves a negative number of buffered records;
    from then on Flush returns the stored error and every call of
    WriteCalibrations panics on the slice [b.buf[b.n:]]. *)
Theorem Flush_overcount_breaks_buffer (b : CalibrationReadStreamer)
  (w : world W) (st : W) (C : Z) (e : error) :
  err b = None ->
  0 < n b <= Z.of_nat (length (buf b)) ->
  WriteCalibrationBatch (store w) (buffered_records b) = (st, (C, Some e)) ->
  n b < C <= maxInt ->
  exists b' w',
    Flush b w = Done ((b', Some e), w') /\
    Buffered b' = n b - C /\
    Buffered b' < 0 /\
    (forall p w2, WriteCalibrations b' p w2 = Panic) /\
    (forall w2, Flush b' w2 = Done ((b', Some e), w2)).
Proof.
  intros Herr Hn Hwr HC.
  rewrite (Flush_submits b w st C (Some e) Herr Hn Hwr).
  rewrite andb_false_r.
  replace ((0 <? C) && (C <? n b)) with false
    by (symmetry; apply andb_false_iff; right; apply Z.ltb_ge; lia).
  assert (Hw : wrap (n b - C) = n b - C).
  { apply wrap_int. unfold is_int, minInt, maxInt in *. lia. }
  rewrite Hw. eexists _, _. split; [reflexivity|].
  unfold Buffered. cbn [n]. split; [reflexivity|]. split; [lia|]. split.
  - intros p w2. unfold WriteCalibrations. cbn [n].
    replace (n b - C =? 0) with false by (symmetry; apply Z.eqb_neq; lia).
    unfold bind at 1. cbv [ret]. unfold bind at 1.
    match goal with |- context [WriteCalibrations_loop p p 0%nat ?b0 0%nat 0 w2] =>
      destruct (loop_negative p b0 ltac:(cbn [n]; lia) p 0%nat 0%nat 0 w2) as [Hl|Hl];
      rewrite Hl
    end; [reflexivity|].
    unfold bind at 1.
    destruct (slice p (Z.of_nat 0) (Z.of_nat (length p)) w2) as [[src w3]|]; [|reflexivity].
    unfold bind at 1. unfold copy, in_range. cbn [n buf].
    replace (0 <=? n b - C) with false by (symmetry; apply Z.leb_gt; lia).
    reflexivity.
  - intros w2. unfold Flush. cbn [err]. reflexivity.
Qed.

(** The first statement of WriteCalibrations: with nothing buffered the
    anchor is reset on the first record. *)
Lemma first_statement (b : CalibrationReadStreamer) (p : list CalibrationRead)
  (w : world W) :
  p <> [] \/ n b <> 0 ->
  exists b0,
    (if n b =? 0
     then do r <- index p 0%nat; ret (resetFirstReadOfBatch b r)
     else ret b) w = Done (b0, w) /\
    t b0 = start_anchor b p /\ n b0 = n b /\ buf b0 = buf b /\
    d b0 = d b /\ err b0 = err b.
Proof.
  intros Hp. unfold start_anchor. destruct (n b =? 0) eqn:Hz.
  - destruct p as [|c0 p']; [apply Z.eqb_eq in Hz; destruct Hp; congruence|].
    exists (resetFirstReadOfBatch b c0). split; [reflexivity|]. cbn. auto.
  - exists b. split; [reflexivity|]. auto.
Qed.

(** The loop passes over records that stay in the open window. *)
Lemma loop_skip (p pre : list CalibrationRead) (b : CalibrationReadStreamer) :
  stays_in_window (t b) (d b) pre ->
  forall rest j i nn (w : world W),
    WriteCalibrations_loop p (pre ++ rest) j b i nn w
      = WriteCalibrations_loop p rest (j + length pre) b i nn w.
Proof.
  unfold stays_in_window. induction pre as [|c pre' IH]; intros Hall rest j i nn w.
  - cbn. rewrite Nat.add_0_r. reflexivity.
  - apply Forall_cons in Hall as [Hc Hall].
    cbn [app WriteCalibrations_loop]. unfold bind at 1.
    rewrite body_no_crossing by (apply Z.leb_gt; exact Hc).
    rewrite (IH Hall). cbn [length]. f_equal. lia.
Qed.

(** The body of the loop on a record that crosses the boundary: the run
    p[i:j] is copied as far as the buffer has room, then the buffer is
    flushed, and the fault state decides. *)
Lemma body_crossing_run (p : list CalibrationRead) (j : nat)
  (c : CalibrationRead) (b : CalibrationReadStreamer) (i : nat) (nn : Z)
  (w : world W) :
  (d b <=? Sub (GetTime c) (t b)) = true ->
  p !! j = Some c ->
  (i <= j)%nat ->
  0 <= n b <= Z.of_nat (length (buf b)) ->
  let src := take (j - i) (drop i p) in
  let k := Nat.min (Z.to_nat (Z.of_nat (length (buf b)) - n b)) (j - i) in
  let b1 := set_n (set_buf b (take (Z.to_nat (n b)) (buf b) ++ take k src
                                ++ drop (Z.to_nat (n b) + k) (buf b)))
              (n b + Z.of_nat k) in
  WriteCalibrations_body p j c b i nn w =
    match Flush b1 w with
    | Done ((b2, _), w2) =>
      match err b2 with
      | Some e => Done (Return b2 (nn + Z.of_nat k) (Some e), w2)
      | None => Done (Continue (resetFirstReadOfBatch b2 c) j (nn + Z.of_nat k), w2)
      end
    | Panic => Panic
    end.
Proof.
  intros Hx Hl Hij Hn src k b1.
  pose proof (lookup_lt_Some _ _ _ Hl) as Hj.
  unfold WriteCalibrations_body. rewrite Hx.
  unfold bind at 1. rewrite slice_in_range by lia.
  replace (Z.to_nat (Z.of_nat j - Z.of_nat i)) with (j - i)%nat by lia.
  rewrite Nat2Z.id. fold src.
  assert (Hsrc : length src = (j - i)%nat).
  { subst src. rewrite length_take, length_drop. lia. }
  unfold bind at 1. rewrite copy_in_range by lia.
  rewrite Hsrc. fold k. fold b1.
  unfold bind at 1.
  destruct (Flush b1 w) as [[[b2 e2] w2]|]; [|reflexivity].
  destruct (err b2) as [e|]; [reflexivity|].
  unfold bind, index. rewrite Hl. reflexivity.
Qed.

(** X4. A write whose records stay in the open window and fit in the buffer
    appends them and returns their number with a nil error. It makes no
    call to the writer and does not look at the fault state: on a faulted
    buffer too the records are accepted and no error is returned. *)
Theorem WriteCalibrations_appends (b : CalibrationReadStreamer)
  (p : list CalibrationRead) (w : world W) :
  0 <= n b ->
  n b + Z.of_nat (length p) <= Z.of_nat (length (buf b)) ->
  p <> [] \/ n b <> 0 ->
  stays_in_window (start_anchor b p) (d b) p ->
  exists b',
    WriteCalibrations b p w = Done ((b', (Z.of_nat (length p), None)), w) /\
    buffered_records b' = buffered_records b ++ p /\
    Buffered b' = n b + Z.of_nat (length p) /\
    err b' = err b /\
    t b' = start_anchor b p.
Proof.
  intros Hn Hcap Hp Hwin.
  destruct (first_statement b p w Hp) as (b0 & Hfirst & Ht0 & Hn0 & Hbuf0 & Hd0 & Herr0).
  unfold WriteCalibrations. unfold bind at 1. rewrite Hfirst.
  unfold bind at 1.
  rewrite loop_no_crossing by (rewrite Ht0, Hd0; exact Hwin).
  destruct (final_copy p b0 0%nat 0 w) as (b' & Hfin & Hbr & Hn' & Ht' & Hd' & Herr' & Hlen');
    [lia|lia|rewrite Hbuf0, Hn0; lia|].
  cbv zeta in Hfin. rewrite Hfin. exists b'.
  rewrite Nat.sub_0_r, Z.add_0_l in *. split; [reflexivity|].
  rewrite drop_0 in Hbr. unfold Buffered.
  assert (Hbr0 : buffered_records b0 = buffered_records b).
  { unfold buffered_records. rewrite Hn0, Hbuf0. reflexivity. }
  repeat split; congruence.
Qed.

(** X5. On a faulted buffer, a record that crosses the boundary ends the
    write: the records before it are copied into the buffer, the writer is
    not called, and WriteCalibrations returns the number of records copied
    with the stored error. The crossing record and the records after it
    are not accepted. *)
Theorem WriteCalibrations_faulted_crossing (b : CalibrationReadStreamer)
  (pre : list CalibrationRead) (c : CalibrationRead)
  (post : list CalibrationRead) (e : error) (w : world W) :
  err b = Some e ->
  0 <= n b ->
  n b + Z.of_nat (length pre) <= Z.of_nat (length (buf b)) ->
  stays_in_window (start_anchor b (pre ++ c :: post)) (d b) pre ->
  d b <= Sub (GetTime c) (start_anchor b (pre ++ c :: post)) ->
  exists b',
    WriteCalibrations b (pre ++ c :: post) w
      = Done ((b', (Z.of_nat (length pre), Some e)), w) /\
    buffered_records b' = buffered_records b ++ pre /\
    err b' = Some e.
Proof.
  intros Herr Hn Hcap Hwin Hx.
  set (p := pre ++ c :: post) in *.
  destruct (first_statement b p w) as (b0 & Hfirst & Ht0 & Hn0 & Hbuf0 & Hd0 & Herr0).
  { left. subst p. destruct pre; discriminate. }
  unfold WriteCalibrations. unfold bind at 1. rewrite Hfirst.
  unfold bind at 1. unfold p at 2.
  rewrite loop_skip by (rewrite Ht0, Hd0; exact Hwin).
  cbn [WriteCalibrations_loop Nat.add]. unfold bind at 1.
  assert (Hl : p !! length pre = Some c).
  { subst p. rewrite lookup_app_r by lia. rewrite Nat.sub_diag. reflexivity. }
  rewrite (body_crossing_run p (length pre) c b0 0%nat 0 w);
    [|rewrite Ht0, Hd0; apply Z.leb_le; exact Hx|exact Hl|lia|rewrite Hbuf0, Hn0; lia].
  rewrite Nat.sub_0_r, drop_0.
  assert (Hpre : take (length pre) p = pre).
  { subst p. rewrite take_app_length. reflexivity. }
  rewrite Hpre, Hbuf0, Hn0.
  replace (Nat.min (Z.to_nat (Z.of_nat (length (buf b)) - n b)) (length pre))
    with (length pre) by lia.
  rewrite (take_ge pre) by lia.
  unfold Flush at 1. cbn [set_n set_buf err]. rewrite Herr0, Herr.
  cbv [ret]. cbn [err set_n set_buf]. rewrite Herr0, Herr.
  eexists. split; [reflexivity|].
  unfold buffered_records. cbn [n buf err set_n set_buf].
  split; [|congruence].
  rewrite app_assoc. rewrite take_app_length'; [reflexivity|].
  rewrite length_app, length_take. lia.
Qed.

(** A flush that is answered with a short count and an error, or with a
    count of zero, keeps what the writer did not commit. *)
Lemma Flush_retains (b : CalibrationReadStreamer) (w : world W) (st : W)
  (C : Z) (eo : option error) :
  err b = None ->
  0 < n b <= Z.of_nat (length (buf b)) ->
  n b <= maxInt ->
  WriteCalibrationBatch (store w) (buffered_records b) = (st, (C, eo)) ->
  0 <= C < n b ->
  eo <> None \/ C = 0 ->
  let e' := match eo with Some x => x | None => ErrShortWrite end in
  exists b',
    Flush b w = Done ((b', Some e'),
                      mkWorld st (calls w ++ [CallWriteCalibrationBatch (buffered_records b)])) /\
    err b' = Some e' /\
    n b' = n b - C /\
    buffered_records b' = drop (Z.to_nat C) (buffered_records b).
Proof.
  intros Herr Hn Hmax Hwr HC He e'.
  rewrite (Flush_submits b w st C eo Herr Hn Hwr).
  assert (Hcls : (if (C <? 1) && (if eo is None then true else false)
                  then Some ErrShortWrite else eo) = Some e').
  { subst e'. destruct eo as [x|].
    - rewrite andb_false_r. reflexivity.
    - destruct He as [He|He]; [congruence|]. subst C. reflexivity. }
  rewrite Hcls. eexists. split; [reflexivity|].
  cbn [err n buf]. unfold buffered_records. cbn [n buf].
  assert (Hw : wrap (n b - C) = n b - C).
  { apply wrap_int. unfold is_int, minInt, maxInt in *. lia. }
  rewrite Hw. split; [reflexivity|]. split; [reflexivity|].
  destruct ((0 <? C) && (C <? n b)) eqn:Hc.
  - rewrite take_app_length' by (rewrite length_take, length_drop; lia).
    rewrite take_drop_commute. f_equal. f_equal. lia.
  - assert (C = 0) as -> by (apply andb_false_iff in Hc as [Hc|Hc]; lia).
    rewrite Z.sub_0_r. reflexivity.
Qed.

(** X6. On a faultless buffer, when the flush at a boundary crossing fails
    (the writer reports an error with a short count, or a count of zero),
    the write ends there: the records before the crossing record have been
    copied and submitted, WriteCalibrations returns their number with the
    error, the error is the fault state of the buffer, and the buffer
    holds what the writer did not commit. The crossing record and those
    after it are not accepted. *)
Theorem WriteCalibrations_aborts_on_failed_flush (b : CalibrationReadStreamer)
  (pre : list CalibrationRead) (c : CalibrationRead)
  (post : list CalibrationRead) (w : world W) (st : W) (C : Z)
  (eo : option error) :
  err b = None ->
  0 <= n b ->
  0 < n b + Z.of_nat (length pre) <= Z.of_nat (length (buf b)) ->
  n b + Z.of_nat (length pre) <= maxInt ->
  stays_in_window (start_anchor b (pre ++ c :: post)) (d b) pre ->
  d b <= Sub (GetTime c) (start_anchor b (pre ++ c :: post)) ->
  WriteCalibrationBatch (store w) (buffered_records b ++ pre) = (st, (C, eo)) ->
  0 <= C < n b + Z.of_nat (length pre) ->
  eo <> None \/ C = 0 ->
  let e' := match eo with Some x => x | None => ErrShortWrite end in
  exists b',
    WriteCalibrations b (pre ++ c :: post) w
      = Done ((b', (Z.of_nat (length pre), Some e')),
              mkWorld st (calls w ++ [CallWriteCalibrationBatch
                                        (buffered_records b ++ pre)])) /\
    err b' = Some e' /\
    Buffered b' = n b + Z.of_nat (length pre) - C /\
    buffered_records b' = drop (Z.to_nat C) (buffered_records b ++ pre).
Proof.
  intros Herr Hn Hcap Hmax Hwin Hx Hwr HC He e'.
  set (p := pre ++ c :: post) in *.
  destruct (first_statement b p w) as (b0 & Hfirst & Ht0 & Hn0 & Hbuf0 & Hd0 & Herr0).
  { left. subst p. destruct pre; discriminate. }
  unfold WriteCalibrations. unfold bind at 1. rewrite Hfirst.
  unfold bind at 1. unfold p at 2.
  rewrite loop_skip by (rewrite Ht0, Hd0; exact Hwin).
  cbn [WriteCalibrations_loop Nat.add]. unfold bind at 1.
  assert (Hl : p !! length pre = Some c).
  { subst p. rewrite lookup_app_r by lia. rewrite Nat.sub_diag. reflexivity. }
  rewrite (body_crossing_run p (length pre) c b0 0%nat 0 w);
    [|rewrite Ht0, Hd0; apply Z.leb_le; exact Hx|exact Hl|lia|rewrite Hbuf0, Hn0; lia].
  rewrite Nat.sub_0_r, drop_0.
  assert (Hpre : take (length pre) p = pre).
  { subst p. rewrite take_app_length. reflexivity. }
  rewrite Hpre, Hbuf0, Hn0.
  replace (Nat.min (Z.to_nat (Z.of_nat (length (buf b)) - n b)) (length pre))
    with (length pre) by lia.
  rewrite (take_ge pre) by lia.
  set (b1 := set_n (set_buf b0 _) _).
  assert (Hbr1 : buffered_records b1 = buffered_records b ++ pre).
  { unfold buffered_records, b1. cbn [n buf set_n set_buf].
    rewrite app_assoc. rewrite take_app_length'; [reflexivity|].
    rewrite length_app, length_take. lia. }
  assert (Hlen1 : length (buf b1) = length (buf b)).
  { unfold b1. cbn [buf set_n set_buf].
    rewrite !length_app, length_take, length_drop. lia. }
  destruct (Flush_retains b1 w st C eo) as (b2 & HF & Herr2 & Hn2 & Hbr2).
  { unfold b1. cbn [err set_n set_buf]. congruence. }
  { rewrite Hlen1. unfold b1. cbn [n set_n]. lia. }
  { unfold b1. cbn [n set_n]. lia. }
  { rewrite Hbr1. exact Hwr. }
  { unfold b1. cbn [n set_n]. lia. }
  { exact He. }
  rewrite HF, Herr2. fold e'. rewrite Hbr1.
  exists b2. rewrite Z.add_0_l. split; [reflexivity|].
  split; [exact Herr2|]. split; [exact Hn2|]. rewrite Hbr2, Hbr1. reflexivity.
Qed.

(** Over a writer whose counts are in range, Flush returns and keeps the
    number of buffered records between zero and what it was. *)
Lemma Flush_keeps_bounds (b : CalibrationReadStreamer) (w : world W) :
  counts_in_range ->
  0 <= n b <= Z.of_nat (length (buf b)) ->
  Z.of_nat (length (buf b)) <= maxInt ->
  exists b' e w',
    Flush b w = Done ((b', e), w') /\
    err b' = e /\
    length (buf b') = length (buf b) /\
    d b' = d b /\
    0 <= n b' <= n b.
Proof.
  intros Hrange Hn Hmax. destruct (err b) as [e0|] eqn:Herr.
  - exists b, (Some e0), w. unfold Flush. rewrite Herr.
    repeat split; auto; lia.
  - destruct (Z.eq_dec (n b) 0) as [Hz|Hz].
    + exists b, None, w. rewrite (Flush_empty b w Herr Hz).
      repeat split; auto; lia.
    + destruct (WriteCalibrationBatch (store w) (buffered_records b))
        as [st [c e]] eqn:Hwr.
      assert (Hn' : 0 < n b <= Z.of_nat (length (buf b))) by lia.
      pose proof (Hrange (store w) (buffered_records b)) as [Hc0 Hcle].
      rewrite Hwr in Hc0, Hcle. cbn in Hc0, Hcle.
      assert (Hbl : Z.of_nat (length (buffered_records b)) = n b).
      { unfold buffered_records. rewrite length_take. lia. }
      rewrite (Flush_submits b w st c e Herr Hn' Hwr).
      destruct (if (c <? 1) && (if e is None then true else false)
                then Some ErrShortWrite else e) as [e'|] eqn:Hcls.
      * assert (Hcn : c <= n b).
        { destruct e as [x|]; [rewrite <- Hbl; apply Hcle; discriminate|].
          destruct (Z.ltb_spec c 1); [lia|]. cbn in Hcls. discriminate. }
        assert (Hw : wrap (n b - c) = n b - c).
        { apply wrap_int. unfold is_int, minInt, maxInt in *. lia. }
        rewrite Hw. eexists _, _, _. split; [reflexivity|]. cbn [err buf d n].
        split; [reflexivity|]. split.
        { destruct ((0 <? c) && (c <? n b)) eqn:Hc; [|reflexivity].
          apply andb_true_iff in Hc as [Hc1 Hc2].
          apply Z.ltb_lt in Hc1, Hc2.
          rewrite length_app, length_take, !length_drop. lia. }
        split; [reflexivity|lia].
      * eexists _, _, _. split; [reflexivity|]. cbn [err buf d n set_n].
        repeat split; auto; lia.
Qed.

(** Over a writer whose counts are in range the loop of WriteCalibrations
    returns, with the buffer within its bounds. *)
Lemma loop_safe (p : list CalibrationRead) :
  counts_in_range ->
  forall rest j b i nn (w : world W),
    drop j p = rest ->
    (i <= j)%nat ->
    (i <= length p)%nat ->
    0 <= n b <= Z.of_nat (length (buf b)) ->
    Z.of_nat (length (buf b)) <= maxInt ->
    0 <= nn <= Z.of_nat i ->
    exists r w',
      WriteCalibrations_loop p rest j b i nn w = Done (r, w') /\
      match r with
      | Continue b' i' nn' =>
        0 <= n b' <= Z.of_nat (length (buf b')) /\
        length (buf b') = length (buf b) /\ d b' = d b /\
        (i' <= length p)%nat /\ 0 <= nn' <= Z.of_nat i'
      | Return b' nn' e =>
        0 <= n b' <= Z.of_nat (length (buf b')) /\
        length (buf b') = length (buf b) /\ d b' = d b /\
        0 <= nn' <= Z.of_nat (length p) /\ err b' = e /\ e <> None
      end.
Proof.
  intros Hrange. induction rest as [|c rest' IH];
    intros j b i nn w Hdrop Hij Hip Hn Hmax Hnn.
  - exists (Continue b i nn), w. split; [reflexivity|]. auto.
  - apply drop_cons_inv in Hdrop as (Hl & Hdrop' & Hj).
    cbn [WriteCalibrations_loop]. unfold bind at 1.
    destruct (d b <=? Sub (GetTime c) (t b)) eqn:Hx.
    + rewrite (body_crossing_run p j c b i nn w Hx Hl Hij Hn).
      set (k := Nat.min (Z.to_nat (Z.of_nat (length (buf b)) - n b)) (j - i)).
      set (b1 := set_n (set_buf b _) _).
      assert (Hlen1 : length (buf b1) = length (buf b)).
      { unfold b1. cbn [buf set_n set_buf].
        rewrite !length_app, !length_take, !length_drop. lia. }
      destruct (Flush_keeps_bounds b1 w Hrange)
        as (b2 & e2 & w2 & HF & Herr2 & Hlen2 & Hd2 & Hn2).
      { rewrite Hlen1. unfold b1. cbn [n set_n]. lia. }
      { rewrite Hlen1. exact Hmax. }
      rewrite HF. unfold b1 in Hn2, Hd2. cbn [n d set_n set_buf] in Hn2, Hd2.
      destruct (err b2) as [e|] eqn:He2.
      * exists (Return b2 (nn + Z.of_nat k) (Some e)), w2.
        split; [reflexivity|].
        repeat split; try lia; try congruence.
      * destruct (IH (S j) (resetFirstReadOfBatch b2 c) j (nn + Z.of_nat k) w2 Hdrop')
          as (r & w' & Hrun & Hr); try (cbn [resetFirstReadOfBatch set_t n buf]; lia).
        exists r, w'. split; [exact Hrun|].
        cbn [resetFirstReadOfBatch set_t n buf d] in Hr.
        destruct r; rewrite Hlen2, Hlen1, Hd2 in Hr; exact Hr.
    + rewrite (body_no_crossing p j c b i nn w Hx).
      destruct (IH (S j) b i nn w Hdrop') as (r & w' & Hrun & Hr); try lia.
      exists r, w'. split; [exact Hrun|exact Hr].
Qed.

(** X7. Over a writer whose counts are in range, WriteCalibrations does
    not panic unless it is given no record while the buffer is empty. It
    keeps the capacity and the duration, leaves the number of buffered
    records between zero and the capacity, returns a count between zero
    and len(p), and an error it returns is the fault state it leaves. *)
Theorem WriteCalibrations_safe (b : CalibrationReadStreamer)
  (p : list CalibrationRead) (w : world W) :
  counts_in_range ->
  0 <= n b <= Z.of_nat (length (buf b)) ->
  Z.of_nat (length (buf b)) <= maxInt ->
  p <> [] \/ n b <> 0 ->
  exists b' nn e w',
    WriteCalibrations b p w = Done ((b', (nn, e)), w') /\
    0 <= Buffered b' <= Z.of_nat (length (buf b')) /\
    length (buf b') = length (buf b) /\
    d b' = d b /\
    0 <= nn <= Z.of_nat (length p) /\
    (e <> None -> err b' = e).
Proof.
  intros Hrange Hn Hmax Hp.
  destruct (first_statement b p w Hp) as (b0 & Hfirst & Ht0 & Hn0 & Hbuf0 & Hd0 & Herr0).
  unfold WriteCalibrations. unfold bind at 1. rewrite Hfirst.
  destruct (loop_safe p Hrange p 0%nat b0 0%nat 0 w) as (r & w' & Hrun & Hr);
    try lia; [apply drop_0|rewrite Hbuf0, Hn0; lia|rewrite Hbuf0; lia|].
  unfold bind at 1. rewrite Hrun. rewrite Hbuf0, Hd0 in Hr.
  destruct r as [b' i' nn'|b' nn' e].
  - destruct Hr as (Hn' & Hlen' & Hd' & Hi' & Hnn').
    unfold bind at 1. rewrite slice_in_range by lia.
    unfold bind at 1. rewrite copy_in_range by lia.
    cbv [ret]. eexists _, _, _, _. split; [reflexivity|].
    unfold Buffered. cbn [n buf d set_n set_buf].
    rewrite length_take, length_drop.
    rewrite !length_app, !length_take, !length_drop.
    split; [lia|]. split; [lia|]. split; [exact Hd'|]. split; [lia|]. congruence.
  - destruct Hr as (Hn' & Hlen' & Hd' & Hnn' & He & Hne).
    cbv [ret]. exists b', nn', e, w'. split; [reflexivity|].
    unfold Buffered. repeat split; auto; lia.
Qed.

(** X8. When the downstream flush fails in Close, the buffered records have
    already been submitted and committed: Close returns the error of the
    writer's Flush, the buffer is empty and no fault is recorded in it. *)
Theorem Close_downstream_failure (b : CalibrationReadStreamer) (w : world W)
  (st st2 : W) (c : Z) (e2 : error) :
  err b = None ->
  0 < n b <= Z.of_nat (length (buf b)) ->
  WriteCalibrationBatch (store w) (buffered_records b) = (st, (c, None)) ->
  1 <= c ->
  CalibrationFlush st = (st2, Some e2) ->
  exists b',
    Close b w
      = Done ((b', Some e2),
              mkWorld st2 (calls w ++ [CallWriteCalibrationBatch (buffered_records b);
                                        CallFlush])) /\
    Buffered b' = 0 /\
    err b' = None.
Proof.
  intros Herr Hn Hwr Hc Hfl.
  unfold Close. unfold bind at 1.
  rewrite (Flush_submits b w st c None Herr Hn Hwr).
  replace (c <? 1) with false by (symmetry; apply Z.ltb_ge; exact Hc).
  cbn [andb]. unfold bind, wr_Flush. cbn [store calls]. rewrite Hfl.
  cbv [ret]. exists (set_n b 0). rewrite <- app_assoc.
  split; [reflexivity|]. unfold Buffered. cbn [n err set_n]. auto.
Qed.

(** The state WriteCalibrations leaves when it follows the grid-aligned
    policy. *)
Lemma WriteCalibrations_grid_state (b : CalibrationReadStreamer)
  (p : list CalibrationRead) (w : world W)
  (flushed : list (list CalibrationRead)) (a : Time)
  (open : list CalibrationRead) :
  fully_succeeds ->
  0 < d b <= maxDuration ->
  err b = None ->
  0 <= n b ->
  p <> [] ->
  n b + Z.of_nat (length p) <= Z.of_nat (length (buf b)) ->
  grid_windows (d b) (start_anchor b p) (buffered_records b) p
    = (flushed, (a, open)) ->
  exists b' w',
    WriteCalibrations b p w = Done ((b', (Z.of_nat (length p), None)), w') /\
    calls w' = calls w ++ map CallWriteCalibrationBatch flushed /\
    t b' = a /\
    buffered_records b' = open /\
    n b' = Z.of_nat (length open) /\
    err b' = None /\
    d b' = d b /\
    length (buf b') = length (buf b).
Proof.
  intros Hok Hd Herr Hn0 Hp Hcap Hgrid.
  destruct (first_statement b p w (or_introl Hp))
    as (b0 & Hfirst & Ht0 & Hn0' & Hbuf0 & Hd0 & Herr0).
  assert (Hbr0 : buffered_records b0 = buffered_records b).
  { unfold buffered_records. rewrite Hn0', Hbuf0. reflexivity. }
  destruct (loop_grid p Hok p 0%nat b0 0%nat w flushed a open) as
    (bl & i' & wl & Hloop & Hcalls & Ht & Hopen & Herrl & Hdl & Hlenl & Hnl & Hil & Hcapl).
  { apply drop_0. }
  { rewrite Hd0. exact Hd. }
  { congruence. }
  { lia. }
  { lia. }
  { lia. }
  { rewrite Hbuf0, Hn0'. lia. }
  { destruct p as [|c0 p']; [congruence|].
    destruct (Z.eq_dec (n b) 0) as [Hz|Hz].
    - right. rewrite Ht0, Hd0. unfold start_anchor. rewrite Hz. cbn [Z.eqb].
      pose proof (Truncate_le (GetTime c0) (d b) (proj1 Hd)). lia.
    - left. lia. }
  { rewrite Hd0, Ht0, Hbr0. cbn [drop take Nat.sub]. rewrite take_0, app_nil_r.
    exact Hgrid. }
  destruct (final_copy p bl i' (Z.of_nat i') wl Hil Hnl Hcapl) as
    (b' & Hfin & Hbr' & Hn' & Ht' & Hd' & Herr' & Hlen').
  assert (Hopen' : buffered_records b' = open) by congruence.
  exists b', wl. split.
  { unfold WriteCalibrations. unfold bind at 1. rewrite Hfirst.
    unfold bind at 1. change 0 with (Z.of_nat 0). rewrite Hloop.
    cbv zeta in Hfin. rewrite Hfin. do 4 f_equal. lia. }
  split; [exact Hcalls|]. split; [congruence|]. split; [exact Hopen'|].
  split.
  { rewrite <- Hopen'. unfold buffered_records. rewrite length_take. lia. }
  split; [congruence|]. split; congruence.
Qed.

(** The policy on two runs of records, one after the other. *)
Lemma grid_windows_app (dur : Duration) (p q : list CalibrationRead) :
  forall anchor window f1 a1 o1 f2 fin,
    grid_windows dur anchor window p = (f1, (a1, o1)) ->
    grid_windows dur a1 o1 q = (f2, fin) ->
    grid_windows dur anchor window (p ++ q) = (f1 ++ f2, fin).
Proof.
  induction p as [|c p' IH]; intros anchor window f1 a1 o1 f2 fin Hp Hq.
  - cbn in Hp. simplify_eq. exact Hq.
  - cbn [app grid_windows] in *. destruct (dur <=? GetTime c - anchor).
    + destruct (grid_windows dur (Truncate (GetTime c) dur) [c] p')
        as [fl' fin'] eqn:Hrec.
      simplify_eq. rewrite (IH _ _ _ _ _ _ _ Hrec Hq). reflexivity.
    + eapply IH; eassumption.
Qed.

(** X10. Cutting a write in two calls changes nothing: over a writer that
    commits every batch, on a faultless buffer with room for all the
    records and a positive duration, writing p and then q submits the same
    batches and leaves the same buffered records, anchor and count as
    writing p ++ q in one call. *)
Theorem write_in_two_calls (b : CalibrationReadStreamer)
  (p q : list CalibrationRead) (w : world W) :
  fully_succeeds ->
  0 < d b <= maxDuration ->
  err b = None ->
  0 <= n b <= Z.of_nat (length (buf b)) ->
  p <> [] ->
  q <> [] ->
  n b + Z.of_nat (length p) + Z.of_nat (length q) <= Z.of_nat (length (buf b)) ->
  exists b1 w1 b2 w2 b12 w12,
    WriteCalibrations b p w = Done ((b1, (Z.of_nat (length p), None)), w1) /\
    WriteCalibrations b1 q w1 = Done ((b2, (Z.of_nat (length q), None)), w2) /\
    WriteCalibrations b (p ++ q) w
      = Done ((b12, (Z.of_nat (length (p ++ q)), None)), w12) /\
    calls w2 = calls w12 /\
    buffered_records b2 = buffered_records b12 /\
    t b2 = t b12 /\
    Buffered b2 = Buffered b12.
Proof.
  intros Hok Hd Herr Hn Hp Hq Hcap.
  destruct (grid_windows (d b) (start_anchor b p) (buffered_records b) p)
    as [f1 [a1 o1]] eqn:Hg1.
  destruct (WriteCalibrations_grid_state b p w f1 a1 o1 Hok Hd Herr)
    as (b1 & w1 & Hrun1 & Hcalls1 & Ht1 & Hbr1 & Hn1 & Herr1 & Hd1 & Hlen1);
    [lia|exact Hp|lia|exact Hg1|].
  assert (Ho1 : o1 <> []).
  { eapply grid_windows_open; [exact Hg1|]. right. exact Hp. }
  assert (Hn1pos : 0 < n b1).
  { rewrite Hn1. destruct o1; [congruence|]. cbn [length]. lia. }
  assert (Hlo1 : Z.of_nat (length o1) <= n b + Z.of_nat (length p)).
  { pose proof (grid_windows_partition _ _ _ _ _ _ _ Hg1) as Hpart.
    apply (f_equal length) in Hpart. rewrite !length_app in Hpart.
    unfold buffered_records in Hpart. rewrite length_take in Hpart. lia. }
  assert (Hsa : start_anchor b1 q = a1).
  { unfold start_anchor. replace (n b1 =? 0) with false
      by (symmetry; apply Z.eqb_neq; lia). exact Ht1. }
  destruct (grid_windows (d b) a1 o1 q) as [f2 [a2 o2]] eqn:Hg2.
  destruct (WriteCalibrations_grid_state b1 q w1 f2 a2 o2 Hok)
    as (b2 & w2 & Hrun2 & Hcalls2 & Ht2 & Hbr2 & Hn2 & Herr2 & Hd2 & Hlen2);
    [rewrite Hd1; exact Hd|exact Herr1|lia|exact Hq|rewrite Hlen1; lia
    |rewrite Hd1, Hsa, Hbr1; exact Hg2|].
  assert (Hsa12 : start_anchor b (p ++ q) = start_anchor b p).
  { unfold start_anchor. destruct p; [congruence|reflexivity]. }
  destruct (WriteCalibrations_grid_state b (p ++ q) w (f1 ++ f2) a2 o2 Hok Hd Herr)
    as (b12 & w12 & Hrun12 & Hcalls12 & Ht12 & Hbr12 & Hn12 & _);
    [lia|destruct p; [congruence|discriminate]|rewrite length_app; lia
    |rewrite Hsa12; eapply grid_windows_app; eassumption|].
  exists b1, w1, b2, w2, b12, w12.
  split; [exact Hrun1|]. split; [exact Hrun2|]. split; [exact Hrun12|].
  unfold Buffered. split.
  { rewrite Hcalls2, Hcalls1, Hcalls12, map_app, app_assoc. reflexivity. }
  split; [congruence|]. split; congruence.
Qed.

End Generic.

Lemma Flush_effects_witness :
  exists b' e w',
    Flush (half_hour_buffer None) (mkWorld (answers (1, Some (ErrStore 3))) [])
      = Done ((b', e), w') /\
    err b' = e /\
    length (buf b') = length (buf (half_hour_buffer None)) /\
    t b' = t (half_hour_buffer None) /\
    d b' = d (half_hour_buffer None) /\
    ((w' = mkWorld (answers (1, Some (ErrStore 3))) [] /\
      b' = half_hour_buffer None /\
      (err (half_hour_buffer None) <> None \/ n (half_hour_buffer None) = 0)) \/
     (err (half_hour_buffer None) = None /\ 0 < n (half_hour_buffer None) /\
      calls w' = [] ++ [CallWriteCalibrationBatch
                          (buffered_records (half_hour_buffer None))] /\
      store w' = (WriteCalibrationBatch (answers (1, Some (ErrStore 3)))
                    (buffered_records (half_hour_buffer None))).1)).
Proof.
  apply (Flush_effects (half_hour_buffer None)
           (mkWorld (answers (1, Some (ErrStore 3))) [])).
  vm_compute. split; discriminate.
Defined.

Lemma Flush_nil_error_commits_witness :
  exists b',
    Flush (half_hour_buffer None) (mkWorld (answers (1, None)) [])
      = Done ((b', None),
              mkWorld reliable
                ([] ++ [CallWriteCalibrationBatch
                          (buffered_records (half_hour_buffer None))])) /\
    Buffered b' = 0 /\
    buffered_records b' = [] /\
    err b' = None /\
    buf b' = buf (half_hour_buffer None).
Proof.
  apply (Flush_nil_error_commits (half_hour_buffer None)
           (mkWorld (answers (1, None)) []) reliable 1).
  - reflexivity.
  - vm_compute. split; [reflexivity|discriminate].
  - reflexivity.
  - vm_compute. discriminate.
Defined.

Lemma Flush_overcount_breaks_buffer_witness :
  exists b' w',
    Flush (half_hour_buffer None) (mkWorld (answers (5, Some (ErrStore 3))) [])
      = Done ((b', Some (ErrStore 3)), w') /\
    Buffered b' = n (half_hour_buffer None) - 5 /\
    Buffered b' < 0 /\
    (forall p (w2 : world scripted), WriteCalibrations b' p w2 = Panic) /\
    (forall w2 : world scripted, Flush b' w2 = Done ((b', Some (ErrStore 3)), w2)).
Proof.
  apply (Flush_overcount_breaks_buffer (half_hour_buffer None)
           (mkWorld (answers (5, Some (ErrStore 3))) []) reliable 5 (ErrStore 3)).
  - reflexivity.
  - vm_compute. split; [reflexivity|discriminate].
  - reflexivity.
  - vm_compute. split; [reflexivity|discriminate].
Defined.

Lemma WriteCalibrations_appends_witness :
  exists b',
    WriteCalibrations (half_hour_buffer (Some ErrShortWrite)) [c0045]
      (mkWorld reliable [])
      = Done ((b', (Z.of_nat (length [c0045]), None)), mkWorld reliable []) /\
    buffered_records b'
      = buffered_records (half_hour_buffer (Some ErrShortWrite)) ++ [c0045] /\
    Buffered b' = n (half_hour_buffer (Some ErrShortWrite))
                  + Z.of_nat (length [c0045]) /\
    err b' = err (half_hour_buffer (Some ErrShortWrite)) /\
    t b' = start_anchor (half_hour_buffer (Some ErrShortWrite)) [c0045].
Proof.
  apply (WriteCalibrations_appends (half_hour_buffer (Some ErrShortWrite))
           [c0045] (mkWorld reliable [])).
  - vm_compute. discriminate.
  - vm_compute. discriminate.
  - left. discriminate.
  - repeat constructor.
Defined.

Lemma WriteCalibrations_faulted_crossing_witness :
  exists b',
    WriteCalibrations (half_hour_buffer (Some ErrShortWrite))
      ([c0045] ++ c0115 :: []) (mkWorld reliable [])
      = Done ((b', (Z.of_nat (length [c0045]), Some ErrShortWrite)),
              mkWorld reliable []) /\
    buffered_records b'
      = buffered_records (half_hour_buffer (Some ErrShortWrite)) ++ [c0045] /\
    err b' = Some ErrShortWrite.
Proof.
  apply (WriteCalibrations_faulted_crossing
           (half_hour_buffer (Some ErrShortWrite)) [c0045] c0115 []
           ErrShortWrite (mkWorld reliable [])).
  - reflexivity.
  - vm_compute. discriminate.
  - vm_compute. discriminate.
  - repeat constructor.
  - vm_compute. discriminate.
Defined.

Lemma WriteCalibrations_aborts_on_failed_flush_witness :
  exists b',
    WriteCalibrations (half_hour_buffer None) ([c0045] ++ c0115 :: [])
      (mkWorld (answers (1, Some (ErrStore 3))) [])
      = Done ((b', (Z.of_nat (length [c0045]), Some (ErrStore 3))),
              mkWorld reliable
                ([] ++ [CallWriteCalibrationBatch
                          (buffered_records (half_hour_buffer None) ++ [c0045])])) /\
    err b' = Some (ErrStore 3) /\
    Buffered b' = n (half_hour_buffer None) + Z.of_nat (length [c0045]) - 1 /\
    buffered_records b'
      = drop (Z.to_nat 1) (buffered_records (half_hour_buffer None) ++ [c0045]).
Proof.
  apply (WriteCalibrations_aborts_on_failed_flush (half_hour_buffer None)
           [c0045] c0115 [] (mkWorld (answers (1, Some (ErrStore 3))) [])
           reliable 1 (Some (ErrStore 3))).
  - reflexivity.
  - vm_compute. discriminate.
  - vm_compute. split; [reflexivity|discriminate].
  - vm_compute. discriminate.
  - repeat constructor.
  - vm_compute. discriminate.
  - reflexivity.
  - vm_compute. split; [discriminate|reflexivity].
  - left. discriminate.
Defined.

Lemma datastore_counts_in_range : counts_in_range (W := datastore).
Proof.
  intros st q. cbn. split; [lia|]. intros _. lia.
Qed.

Lemma WriteCalibrations_safe_witness :
  exists b' nn e w',
    WriteCalibrations (half_hour_buffer None) [c0045; c0115]
      (mkWorld (mkDatastore []) [])
      = Done ((b', (nn, e)), w') /\
    0 <= Buffered b' <= Z.of_nat (length (buf b')) /\
    length (buf b') = length (buf (half_hour_buffer None)) /\
    d b' = d (half_hour_buffer None) /\
    0 <= nn <= Z.of_nat (length [c0045; c0115]) /\
    (e <> None -> err b' = e).
Proof.
  apply (WriteCalibrations_safe (half_hour_buffer None) [c0045; c0115]
           (mkWorld (mkDatastore []) [])).
  - exact datastore_counts_in_range.
  - vm_compute. split; discriminate.
  - vm_compute. discriminate.
  - left. discriminate.
Defined.

Lemma Close_downstream_failure_witness :
  exists b',
    Close (half_hour_buffer None) (mkWorld flush_fails [])
      = Done ((b', Some (ErrStore 9)),
              mkWorld reliable
                ([] ++ [CallWriteCalibrationBatch
                          (buffered_records (half_hour_buffer None));
                        CallFlush])) /\
    Buffered b' = 0 /\
    err b' = None.
Proof.
  apply (Close_downstream_failure (half_hour_buffer None)
           (mkWorld flush_fails []) flush_fails reliable 2 (ErrStore 9)).
  - reflexivity.
  - vm_compute. split; [reflexivity|discriminate].
  - reflexivity.
  - vm_compute. discriminate.
  - reflexivity.
Defined.

Lemma scenario_nondecreasing : nondecreasing scenario.
Proof.
  unfold nondecreasing, scenario.
  repeat (apply SSorted_cons;
          [|repeat (apply Forall_cons; split; [vm_compute; discriminate|]);
            apply Forall_nil; exact I]).
  apply SSorted_nil.
Qed.

Lemma no_loss_within_capacity_witness :
  exists b' w' b'' e w'',
    WriteCalibrations (NewCalibrationReadStreamerDuration 8 Hour) scenario
      (mkWorld (mkDatastore []) [])
      = Done ((b', (Z.of_nat (length scenario), None)), w') /\
    Close b' w' = Done ((b'', e), w'') /\
    (exists received,
       calls w''
         = [] ++ map CallWriteCalibrationBatch received ++ [CallFlush] /\
       concat received = scenario /\
       Forall (spans_less Hour) received).
Proof.
  apply (no_loss_within_capacity 8 Hour scenario (mkWorld (mkDatastore []) [])).
  - exact datastore_fully_succeeds.
  - vm_compute. split; [reflexivity|discriminate].
  - discriminate.
  - exact scenario_nondecreasing.
  - vm_compute. lia.
Defined.

Lemma write_in_two_calls_witness :
  exists b1 w1 b2 w2 b12 w12,
    WriteCalibrations (NewCalibrationReadStreamerDuration 8 Hour) [c0000; c0030]
      (mkWorld (mkDatastore []) [])
      = Done ((b1, (Z.of_nat (length [c0000; c0030]), None)), w1) /\
    WriteCalibrations b1 [c0100; c0130] w1
      = Done ((b2, (Z.of_nat (length [c0100; c0130]), None)), w2) /\
    WriteCalibrations (NewCalibrationReadStreamerDuration 8 Hour)
      ([c0000; c0030] ++ [c0100; c0130]) (mkWorld (mkDatastore []) [])
      = Done ((b12, (Z.of_nat (length ([c0000; c0030] ++ [c0100; c0130])), None)),
              w12) /\
    calls w2 = calls w12 /\
    buffered_records b2 = buffered_records b12 /\
    t b2 = t b12 /\
    Buffered b2 = Buffered b12.
Proof.
  apply (write_in_two_calls (NewCalibrationReadStreamerDuration 8 Hour)
           [c0000; c0030] [c0100; c0130] (mkWorld (mkDatastore []) [])).
  - exact datastore_fully_succeeds.
  - vm_compute. split; [reflexivity|discriminate].
  - reflexivity.
  - vm_compute. split; discriminate.
  - discriminate.
  - discriminate.
  - vm_compute. discriminate.
Defined.

End calibration_more.


(** * Further properties of MealStreamer *)

Module meal_more.
Import goint gotime slices model glukitio container meal meal_spec writers examples.
Import meal_more_spec meal_properties.

(** X11. ListToArrayOfMealReads returns the first [size] values of the list
    when the list has that many; on the reversed list and the size that
    ReverseList returns, this is the window, oldest record first. *)
Theorem ListToArrayOfMealReads_take {S : Type} (l : ImmutableList)
  (size : nat) (w : S) :
  (size <= length l)%nat ->
  ListToArrayOfMealReads l size w = Done (take size l, w) /\
  ListToArrayOfMealReads (ReverseList l).1 (ReverseList l).2 w = Done (rev l, w).
Proof.
  intros Hsize. split.
  - revert l Hsize. induction size as [|k IH]; intros l Hsize.
    + destruct l; reflexivity.
    + destruct l as [|x l]; [cbn in Hsize; lia|].
      cbn [ListToArrayOfMealReads take]. unfold bind.
      rewrite IH by (cbn in Hsize; lia). reflexivity.
  - unfold ReverseList. cbn [fst snd]. rewrite <- (length_rev l).
    apply ListToArrayOfMealReads_all.
Qed.

Section Generic.
Context {W : Type} {writer : MealBatchWriter W}.

(** X12. Close on a window that is not empty, when the batch write
    succeeds: the window is submitted oldest record first, then the writer
    the batch write returned is flushed. The streamer returned has an
    empty window. When the flush succeeds it holds the writer the batch
    write returned, and the writer the flush returned is dropped; when the
    flush fails it holds the writer the flush returned, with the error. *)
Theorem Close_writer (b : MealStreamer W) (w : world) (iw iw2 : W)
  (e2 : option error) :
  head b <> [] ->
  WriteMealBatch (wr b) (rev (head b)) = (iw, None) ->
  MealFlush iw = (iw2, e2) ->
  Close b w =
    Done ((Some (newMealStreamerDuration [] None
                   (match e2 with Some _ => iw2 | None => iw end) (d b)),
           e2),
          mkWorld (cells w)
            (calls w ++ [CallWriteMealBatch (rev (head b)); CallFlush])).
Proof.
  intros Hne Hwr Hfl. unfold Close. unfold bind at 1.
  rewrite Flush_run. destruct (head b) as [|x l] eqn:Hh; [congruence|].
  cbv zeta. rewrite Hwr. unfold bind, wr_Flush.
  cbn [wr d head tailVal newMealStreamerDuration cells calls]. rewrite Hfl.
  rewrite <- app_assoc. destruct e2; reflexivity.
Qed.

(** The iteration variable, as far as the cells go. *)
Lemma loopvar_next_cell (lv : loopvar) (a : nat) (x : Meal) (w : world) :
  (lv = PerLoop -> (a < length (cells w))%nat) ->
  exists a' w',
    loopvar_next lv a x w = Done (a', w') /\
    cells w' !! a' = Some x /\
    (a' < length (cells w'))%nat /\
    (length (cells w) <= length (cells w'))%nat /\
    (lv = PerLoop -> a' = a) /\
    calls w' = calls w.
Proof.
  intros Ha.
  destruct (loopvar_next_spec lv a x w 0%nat)
    as (a' & w' & Hrun & Hcell & Hlt & Hgrow & _ & Hcalls); [|lia|].
  { intros Hlv. specialize (Ha Hlv). lia. }
  exists a', w'. repeat split; auto; try lia.
  intros ->. cbn in Hrun. unfold bind, assign in Hrun. cbv [ret] in Hrun.
  congruence.
Qed.

(** The loop of WriteMeals loses no record: the batches it submits and the
    window it leaves are the window it found and the records it was
    given. *)
Lemma loop_no_loss (lv : loopvar) :
  never_fails ->
  forall rest (s : MealStreamer W) (w : world) (a : nat),
    (lv = PerLoop -> (a < length (cells w))%nat) ->
    well_formed s w ->
    exists s' w' flushed,
      WriteMeals_loop lv a rest s w = Done ((Some s', None), w') /\
      calls w' = calls w ++ map CallWriteMealBatch flushed /\
      concat flushed ++ rev (head s') = rev (head s) ++ rest /\
      Forall (fun batch => batch <> []) flushed /\
      well_formed s' w'.
Proof.
  intros Hok. induction rest as [|x rest' IH]; intros s w a Ha Hwf.
  - exists s, w, []. cbn. rewrite !app_nil_r. auto.
  - destruct (loopvar_next_cell lv a x w Ha)
      as (a' & w1 & Hnext & Hcell & Ha' & Hgrow & Hsame & Hcalls).
    cbn [WriteMeals_loop]. unfold bind at 1. rewrite Hnext.
    unfold bind at 1. unfold deref at 1. rewrite Hcell.
    assert (Ha1 : lv = PerLoop -> (a' < length (cells w1))%nat) by auto.
    destruct (head s) as [|y l] eqn:Hh.
    + destruct (IH (newMealStreamerDuration (NewImmutableList [] x) (Some a')
                      (wr s) (d s)) w1 a' Ha1)
        as (s' & w' & fl & Hrun & Hc & Hcat & Hne & Hwf').
      { unfold well_formed. cbn. exact Ha'. }
      exists s', w', fl. split; [exact Hrun|]. split; [congruence|].
      split; [exact Hcat|]. auto.
    + unfold well_formed in Hwf. rewrite Hh in Hwf.
      destruct (tailVal s) as [a0|] eqn:Htv; [|discriminate].
      assert (Ha0 : (a0 < length (cells w1))%nat) by lia.
      destruct (lookup_lt_is_Some_2 _ _ Ha0) as [tv Htvc].
      unfold bind at 1. unfold deref at 1. rewrite Htvc.
      destruct (d s <=? Sub (GetTime x) (GetTime tv)).
      * unfold bind at 1. rewrite Flush_run, Hh. cbv zeta.
        pose proof (Hok (wr s) (rev (y :: l))) as Hans.
        destruct (WriteMealBatch (wr s) (rev (y :: l))) as [iw e].
        cbn in Hans. subst e.
        set (w2 := mkWorld (cells w1) _).
        destruct (IH (newMealStreamerDuration (NewImmutableList [] x) (Some a')
                        iw (d s)) w2 a' Ha1)
          as (s' & w' & fl & Hrun & Hc & Hcat & Hne & Hwf').
        { unfold well_formed. cbn. exact Ha'. }
        exists s', w', (rev (y :: l) :: fl). split; [exact Hrun|].
        split.
        { rewrite Hc. cbn [calls w2 map]. rewrite Hcalls, <- app_assoc. reflexivity. }
        split.
        { cbn [concat]. rewrite <- app_assoc, Hcat. reflexivity. }
        split; [|exact Hwf'].
        constructor; [|exact Hne].
        intros Hnil. apply (f_equal length) in Hnil.
        rewrite length_rev in Hnil. discriminate.
      * destruct (IH (newMealStreamerDuration (NewImmutableList (y :: l) x)
                        (Some a0) (wr s) (d s)) w1 a' Ha1)
          as (s' & w' & fl & Hrun & Hc & Hcat & Hne & Hwf').
        { unfold well_formed. cbn. exact Ha0. }
        exists s', w', fl. split; [exact Hrun|]. split; [congruence|].
        split; [|auto].
        rewrite Hcat. cbn [head newMealStreamerDuration NewImmutableList rev].
        rewrite <- app_assoc. reflexivity.
Qed.

(** X13. WriteMeals loses and repeats no record. Over a writer that never
    fails, on a well-formed streamer, it returns a streamer and no error;
    the batches it submits, put end to end and followed by the window of
    the streamer returned, are the window it found followed by the records
    written, in their order; and it submits no empty batch. *)
Theorem WriteMeals_no_loss (s : MealStreamer W) (p : list Meal) (w : world) :
  never_fails ->
  well_formed s w ->
  exists s' w' flushed,
    WriteMeals s p w = Done ((Some s', None), w') /\
    calls w' = calls w ++ map CallWriteMealBatch flushed /\
    concat flushed ++ rev (head s') = rev (head s) ++ p /\
    Forall (fun batch => batch <> []) flushed.
Proof.
  intros Hok Hwf. unfold WriteMeals, WriteMeals_with. unfold bind at 1.
  cbn [loopvar_enter]. unfold alloc.
  set (w0 := mkWorld (cells w ++ [zeroMeal]) (calls w)).
  destruct (loop_no_loss PerLoop Hok p
              (newMealStreamerDuration (head s) (tailVal s) (wr s) (d s))
              w0 (length (cells w)))
    as (s' & w' & fl & Hrun & Hc & Hcat & Hne & _).
  { intros _. cbn. rewrite length_app. cbn. lia. }
  { unfold well_formed in *. cbn. destruct (tailVal s); [|exact Hwf].
    rewrite length_app. cbn. lia. }
  exists s', w', fl. auto.
Qed.

Lemma Sub_self (x : Time) : Sub x x = 0.
Proof. unfold Sub. rewrite Z.sub_diag. reflexivity. Qed.

(** Once the anchor is the iteration variable, the loop flushes no more:
    the test compares each record with itself, and every record left
    joins the window. *)
Lemma loop_same_cell (a : nat) :
  forall rest (s : MealStreamer W) (w : world),
    0 < d s ->
    tailVal s = Some a ->
    head s <> [] ->
    (a < length (cells w))%nat ->
    exists s' w',
      WriteMeals_loop PerLoop a rest s w = Done ((Some s', None), w') /\
      calls w' = calls w /\
      rev (head s') = rev (head s) ++ rest /\
      tailVal s' = Some a /\
      cells w' !! a = match last rest with
                      | Some y => Some y
                      | None => cells w !! a
                      end /\
      (a < length (cells w'))%nat.
Proof.
  induction rest as [|x rest' IH]; intros s w Hd Htv Hne Ha.
  - exists s, w. cbn. rewrite app_nil_r. repeat split; auto.
  - cbn [WriteMeals_loop loopvar_next]. unfold bind at 1. unfold bind at 1.
    unfold assign. cbv [ret].
    set (w1 := mkWorld (<[a := x]> (cells w)) (calls w)).
    assert (Hcell : cells w1 !! a = Some x).
    { cbn. apply list_lookup_insert_eq. exact Ha. }
    assert (Ha1 : (a < length (cells w1))%nat).
    { cbn. rewrite length_insert. exact Ha. }
    unfold bind at 1. unfold deref at 1. rewrite Hcell.
    destruct (head s) as [|y l] eqn:Hh; [congruence|].
    rewrite Htv. unfold bind at 1. unfold deref at 1. rewrite Hcell.
    rewrite Sub_self.
    replace (d s <=? 0) with false by (symmetry; apply Z.leb_gt; exact Hd).
    destruct (IH (newMealStreamerDuration (NewImmutableList (y :: l) x)
                    (Some a) (wr s) (d s)) w1 Hd eq_refl ltac:(discriminate) Ha1)
      as (s' & w' & Hrun & Hc & Hrev & Htv' & Hlast & Ha').
    exists s', w'. split; [exact Hrun|]. split; [exact Hc|]. split.
    { rewrite Hrev. cbn [head newMealStreamerDuration NewImmutableList rev].
      rewrite <- app_assoc. reflexivity. }
    split; [exact Htv'|]. split; [|exact Ha'].
    rewrite Hlast, last_cons. destruct (last rest'); [reflexivity|exact Hcell].
Qed.

(** X14. Written to a streamer whose window is empty, the records of one
    call of WriteMeals all end in one window, however far apart they are:
    with a positive duration the writer is not called, and the anchor of
    the streamer returned reads the last record written. *)
Theorem WriteMeals_one_window (s : MealStreamer W) (p : list Meal) (w : world) :
  head s = [] ->
  0 < d s ->
  exists s' w',
    WriteMeals s p w = Done ((Some s', None), w') /\
    calls w' = calls w /\
    rev (head s') = p /\
    (p <> [] -> exists a, tailVal s' = Some a /\ cells w' !! a = last p).
Proof.
  intros Hh Hd. unfold WriteMeals, WriteMeals_with. unfold bind at 1.
  cbn [loopvar_enter]. unfold alloc.
  set (w0 := mkWorld (cells w ++ [zeroMeal]) (calls w)).
  set (a := length (cells w)).
  assert (Ha0 : (a < length (cells w0))%nat).
  { cbn. rewrite length_app. cbn. subst a. lia. }
  destruct p as [|x rest].
  - eexists _, _. cbn. split; [reflexivity|]. rewrite Hh. cbn.
    repeat split; auto. congruence.
  - cbn [WriteMeals_loop loopvar_next]. unfold bind at 1. unfold bind at 1.
    unfold assign. cbv [ret].
    set (w1 := mkWorld (<[a := x]> (cells w0)) (calls w0)).
    assert (Hcell : cells w1 !! a = Some x).
    { apply list_lookup_insert_eq. exact Ha0. }
    assert (Ha1 : (a < length (cells w1))%nat).
    { cbn [cells w1]. rewrite length_insert. exact Ha0. }
    unfold bind at 1. unfold deref at 1. rewrite Hcell.
    cbn [head newMealStreamerDuration]. rewrite Hh.
    destruct (loop_same_cell a rest
                (newMealStreamerDuration (NewImmutableList [] x) (Some a)
                   (wr s) (d s)) w1 Hd eq_refl ltac:(discriminate) Ha1)
      as (s' & w' & Hrun & Hc & Hrev & Htv' & Hlast & _).
    exists s', w'. split; [exact Hrun|]. split; [rewrite Hc; reflexivity|].
    split; [exact Hrev|]. intros _. exists a. split; [exact Htv'|].
    rewrite Hlast, last_cons. destruct (last rest); [reflexivity|exact Hcell].
Qed.

(** Before the anchor is the iteration variable, the loop submits at most
    one batch. *)
Lemma loop_at_most_one (a : nat) :
  forall rest (s : MealStreamer W) (w : world),
    0 < d s ->
    (a < length (cells w))%nat ->
    (head s = [] \/
     exists a0, tailVal s = Some a0 /\ (a0 < length (cells w))%nat /\ a0 <> a) ->
    exists r w',
      WriteMeals_loop PerLoop a rest s w = Done (r, w') /\
      (calls w' = calls w \/
       exists batch, calls w' = calls w ++ [CallWriteMealBatch batch]).
Proof.
  induction rest as [|x rest' IH]; intros s w Hd Ha Hs.
  - exists (Some s, None), w. split; [reflexivity|]. left. reflexivity.
  - cbn [WriteMeals_loop loopvar_next]. unfold bind at 1. unfold bind at 1.
    unfold assign. cbv [ret].
    set (w1 := mkWorld (<[a := x]> (cells w)) (calls w)).
    assert (Hcell : cells w1 !! a = Some x).
    { cbn. apply list_lookup_insert_eq. exact Ha. }
    assert (Ha1 : (a < length (cells w1))%nat).
    { cbn. rewrite length_insert. exact Ha. }
    unfold bind at 1. unfold deref at 1. rewrite Hcell.
    destruct (head s) as [|y l] eqn:Hh.
    + destruct (loop_same_cell a rest'
                  (newMealStreamerDuration (NewImmutableList [] x) (Some a)
                     (wr s) (d s)) w1 Hd eq_refl ltac:(discriminate) Ha1)
        as (s' & w' & Hrun & Hc & _).
      exists (Some s', None), w'. split; [exact Hrun|]. left. rewrite Hc. reflexivity.
    + destruct Hs as [Hs|(a0 & Htv & Ha0 & Hne)]; [discriminate|].
      assert (Ha0' : (a0 < length (cells w1))%nat).
      { cbn. rewrite length_insert. exact Ha0. }
      destruct (lookup_lt_is_Some_2 _ _ Ha0') as [tv Htvc].
      rewrite Htv. unfold bind at 1. unfold deref at 1. rewrite Htvc.
      destruct (d s <=? Sub (GetTime x) (GetTime tv)).
      * unfold bind at 1. rewrite Flush_run, Hh. cbv zeta.
        destruct (WriteMealBatch (wr s) (rev (y :: l))) as [iw [e|]].
        -- eexists _, _. split; [reflexivity|]. right.
           exists (rev (y :: l)). reflexivity.
        -- set (w2 := mkWorld (cells w1) _).
           destruct (loop_same_cell a rest'
                       (newMealStreamerDuration (NewImmutableList [] x) (Some a)
                          iw (d s)) w2 Hd eq_refl ltac:(discriminate) Ha1)
             as (s' & w' & Hrun & Hc & _).
           exists (Some s', None), w'. split; [exact Hrun|]. right.
           exists (rev (y :: l)). rewrite Hc. reflexivity.
      * destruct (IH (newMealStreamerDuration (NewImmutableList (y :: l) x)
                        (Some a0) (wr s) (d s)) w1 Hd Ha1)
          as (r & w' & Hrun & Hc).
        { right. exists a0. auto. }
        exists r, w'. split; [exact Hrun|exact Hc].
Qed.

(** X15. One call of WriteMeals submits at most one batch, whatever the
    number of records and their timestamps (positive duration, well-formed
    streamer, any writer). *)
Theorem WriteMeals_at_most_one_batch (s : MealStreamer W) (p : list Meal)
  (w : world) :
  0 < d s ->
  well_formed s w ->
  exists r w',
    WriteMeals s p w = Done (r, w') /\
    (calls w' = calls w \/
     exists batch, calls w' = calls w ++ [CallWriteMealBatch batch]).
Proof.
  intros Hd Hwf. unfold WriteMeals, WriteMeals_with. unfold bind at 1.
  cbn [loopvar_enter]. unfold alloc.
  set (w0 := mkWorld (cells w ++ [zeroMeal]) (calls w)).
  destruct (loop_at_most_one (length (cells w)) p
              (newMealStreamerDuration (head s) (tailVal s) (wr s) (d s)) w0 Hd)
    as (r & w' & Hrun & Hc).
  { cbn. rewrite length_app. cbn. lia. }
  { unfold well_formed in Hwf. cbn [head tailVal newMealStreamerDuration].
    destruct (tailVal s) as [a0|]; [|left; exact Hwf].
    right. exists a0. cbn. rewrite length_app. cbn. repeat split; lia. }
  exists r, w'. split; [exact Hrun|exact Hc].
Qed.

(** While the anchor is a cell of an earlier call, the loop passes over
    records that stay in the window: they join it. *)
Lemma loop_skip_anchor (a a0 : nat) (first : Meal) (wr0 : W) (d0 : Duration) :
  a0 <> a ->
  forall pre rest hd (w : world),
    (a < length (cells w))%nat ->
    cells w !! a0 = Some first ->
    hd <> [] ->
    Forall (fun x => Sub (GetTime x) (GetTime first) < d0) pre ->
    exists w',
      WriteMeals_loop PerLoop a (pre ++ rest) (mkStreamer hd (Some a0) wr0 d0) w
        = WriteMeals_loop PerLoop a rest
            (mkStreamer (rev pre ++ hd) (Some a0) wr0 d0) w' /\
      cells w' !! a0 = Some first /\
      calls w' = calls w /\
      (a < length (cells w'))%nat.
Proof.
  intros Hne. induction pre as [|x pre' IH]; intros rest hd w Ha Hc0 Hhd Hall.
  - exists w. cbn. auto.
  - apply Forall_cons in Hall as [Hx Hall].
    cbn [app WriteMeals_loop loopvar_next]. unfold bind at 1. unfold bind at 1.
    unfold assign. cbv [ret].
    set (w1 := mkWorld (<[a := x]> (cells w)) (calls w)).
    assert (Hcell : cells w1 !! a = Some x).
    { cbn. apply list_lookup_insert_eq. exact Ha. }
    assert (Ha1 : (a < length (cells w1))%nat).
    { cbn. rewrite length_insert. exact Ha. }
    assert (Hc1 : cells w1 !! a0 = Some first).
    { cbn. rewrite list_lookup_insert_ne by congruence. exact Hc0. }
    unfold bind at 1. unfold deref at 1. rewrite Hcell.
    cbn [head tailVal wr d]. destruct hd as [|y l]; [congruence|].
    unfold bind at 1. unfold deref at 1. rewrite Hc1.
    replace (d0 <=? Sub (GetTime x) (GetTime first)) with false
      by (symmetry; apply Z.leb_gt; exact Hx).
    destruct (IH rest (x :: y :: l) w1 Ha1 Hc1 ltac:(discriminate) Hall)
      as (w' & Hrun & Hc' & Hcalls & Ha').
    exists w'. unfold newMealStreamerDuration, NewImmutableList.
    rewrite Hrun. cbn [rev]. rewrite <- app_assoc. cbn [app].
    repeat split; auto.
Qed.

(** X16. When the flush at a boundary crossing fails, WriteMeals returns
    the nil streamer and the error of the writer: the window and the
    records before the crossing record were submitted as one batch, and
    nothing of them comes back to the caller in the result. The cell the
    anchor of the streamer written to points to is as it was. *)
Theorem WriteMeals_failed_flush (s : MealStreamer W) (pre : list Meal)
  (c : Meal) (post : list Meal) (w : world) (a0 : nat) (first : Meal)
  (wr' : W) (e : error) :
  tailVal s = Some a0 ->
  cells w !! a0 = Some first ->
  head s <> [] ->
  Forall (fun x => Sub (GetTime x) (GetTime first) < d s) pre ->
  d s <= Sub (GetTime c) (GetTime first) ->
  WriteMealBatch (wr s) (rev (head s) ++ pre) = (wr', Some e) ->
  exists w',
    WriteMeals s (pre ++ c :: post) w = Done ((None, Some e), w') /\
    calls w' = calls w ++ [CallWriteMealBatch (rev (head s) ++ pre)] /\
    cells w' !! a0 = Some first.
Proof.
  intros Htv Hc0 Hhd Hall Hx Hwr.
  pose proof (lookup_lt_Some _ _ _ Hc0) as Ha0.
  unfold WriteMeals, WriteMeals_with. unfold bind at 1.
  cbn [loopvar_enter]. unfold alloc.
  set (w0 := mkWorld (cells w ++ [zeroMeal]) (calls w)).
  set (a := length (cells w)).
  unfold newMealStreamerDuration. rewrite Htv.
  destruct (loop_skip_anchor a a0 first (wr s) (d s) ltac:(subst a; lia)
              pre (c :: post) (head s) w0)
    as (w1 & Hrun & Hc1 & Hcalls1 & Ha1); auto.
  { cbn. rewrite length_app. cbn. subst a. lia. }
  { cbn. apply lookup_app_l_Some. exact Hc0. }
  rewrite Hrun.
  cbn [WriteMeals_loop loopvar_next]. unfold bind at 1. unfold bind at 1.
  unfold assign. cbv [ret].
  set (w2 := mkWorld (<[a := c]> (cells w1)) (calls w1)).
  assert (Hcell : cells w2 !! a = Some c).
  { cbn. apply list_lookup_insert_eq. exact Ha1. }
  assert (Hc2 : cells w2 !! a0 = Some first).
  { cbn. rewrite list_lookup_insert_ne by (subst a; lia). exact Hc1. }
  unfold bind at 1. unfold deref at 1. rewrite Hcell.
  cbn [head tailVal wr d].
  destruct (rev pre ++ head s) as [|y l] eqn:Hwin.
  { apply (f_equal length) in Hwin. rewrite length_app in Hwin.
    destruct (head s); [congruence|]. cbn in Hwin. lia. }
  unfold bind at 1. unfold deref at 1. rewrite Hc2.
  replace (d s <=? Sub (GetTime c) (GetTime first)) with true
    by (symmetry; apply Z.leb_le; exact Hx).
  unfold bind at 1. rewrite Flush_run. cbn [head wr d].
  assert (Hrev : rev (y :: l) = rev (head s) ++ pre).
  { rewrite <- Hwin, rev_app_distr, rev_involutive. reflexivity. }
  cbv zeta. rewrite Hrev, Hwr.
  eexists. split; [reflexivity|]. cbn [calls cells w2].
  split; [rewrite Hcalls1; reflexivity|exact Hc2].
Qed.

(** The policy on one record, then on the records after it. *)
Lemma first_arrival_windows_cons (dur : Duration) (window : list Meal)
  (c : Meal) (p : list Meal) (f1 o1 f2 o2 : _) :
  first_arrival_windows dur window [c] = (f1, o1) ->
  first_arrival_windows dur o1 p = (f2, o2) ->
  first_arrival_windows dur window (c :: p) = (f1 ++ f2, o2).
Proof.
  cbn [first_arrival_windows]. destruct window as [|first rest].
  - intros H1 H2. simplify_eq. exact H2.
  - destruct (dur <=? GetTime c - GetTime first).
    + intros H1 H2. simplify_eq. rewrite H2. reflexivity.
    + intros H1 H2. simplify_eq. exact H2.
Qed.

(** One record written by WriteMeal follows the first-arrival policy. *)
Lemma WriteMeal_step (s : MealStreamer W) (c : Meal) (w : world)
  (flushed : list (list Meal)) (open : list Meal) :
  never_fails ->
  0 < d s <= maxDuration ->
  anchored s w ->
  first_arrival_windows (d s) (rev (head s)) [c] = (flushed, open) ->
  exists s' w',
    WriteMeal s c w = Done ((Some s', None), w') /\
    calls w' = calls w ++ map CallWriteMealBatch flushed /\
    rev (head s') = open /\
    anchored s' w' /\
    d s' = d s.
Proof.
  intros Hok Hd Hanc Hpol. unfold WriteMeal, WriteMeals.
  rewrite WriteMeals_one_record. unfold WriteMeals_with. unfold bind at 1.
  cbn [loopvar_enter]. cbv [ret].
  apply (loop_first_arrival Hok [c]
           (newMealStreamerDuration (head s) (tailVal s) (wr s) (d s))
           w 0%nat flushed open Hd Hanc Hpol).
Qed.

(** X17. Written one record per call, each call on the streamer the call
    before returned, the records follow the first-arrival policy: over a
    writer that never fails, from a streamer whose anchor holds the first
    record of its window, the writer is submitted exactly the windows the
    policy flushes and the last streamer holds the window the policy
    leaves open, anchored at its first record. *)
Theorem WriteMeal_each_first_arrival (p : list Meal) :
  never_fails ->
  forall (s : MealStreamer W) (w : world) (flushed : list (list Meal))
    (open : list Meal),
    0 < d s <= maxDuration ->
    anchored s w ->
    first_arrival_windows (d s) (rev (head s)) p = (flushed, open) ->
    exists s' w',
      WriteMeal_each (Some s) p w = Done ((Some s', None), w') /\
      calls w' = calls w ++ map CallWriteMealBatch flushed /\
      rev (head s') = open /\
      anchored s' w'.
Proof.
  intros Hok. induction p as [|c p' IH]; intros s w flushed open Hd Hanc Hpol.
  - cbn in Hpol. simplify_eq. exists s, w. cbn. rewrite app_nil_r. auto.
  - destruct (first_arrival_windows (d s) (rev (head s)) [c]) as [f1 o1] eqn:H1.
    destruct (WriteMeal_step s c w f1 o1 Hok Hd Hanc H1)
      as (s1 & w1 & Hrun1 & Hc1 & Hrev1 & Hanc1 & Hd1).
    destruct (first_arrival_windows (d s) o1 p') as [f2 o2] eqn:H2.
    pose proof (first_arrival_windows_cons _ _ _ _ _ _ _ _ H1 H2) as Hall.
    rewrite Hall in Hpol. simplify_eq.
    destruct (IH s1 w1 f2 open) as (s' & w' & Hrun & Hc & Hrev & Hanc');
      [rewrite Hd1; exact Hd|exact Hanc1|rewrite Hd1; exact H2|].
    exists s', w'. cbn [WriteMeal_each]. unfold bind at 1. rewrite Hrun1.
    split; [exact Hrun|]. split; [|auto].
    rewrite Hc, Hc1, map_app, app_assoc. reflexivity.
Qed.

End Generic.

Lemma ListToArrayOfMealReads_take_witness :
  ListToArrayOfMealReads meal_scenario 2 no_cell
    = Done (take 2 meal_scenario, no_cell) /\
  ListToArrayOfMealReads (ReverseList meal_scenario).1
    (ReverseList meal_scenario).2 no_cell
    = Done (rev meal_scenario, no_cell).
Proof.
  apply (ListToArrayOfMealReads_take meal_scenario 2 no_cell).
  vm_compute. lia.
Defined.

Lemma Close_writer_witness :
  Close (two_meals meal_reliable) one_cell =
    Done ((Some (newMealStreamerDuration [] None
                   (match @None error with
                    | Some _ => meal_reliable
                    | None => meal_reliable
                    end) (d (two_meals meal_reliable))),
           None),
          mkWorld (cells one_cell)
            (calls one_cell
               ++ [CallWriteMealBatch (rev (head (two_meals meal_reliable)));
                   CallFlush])).
Proof.
  apply (Close_writer (two_meals meal_reliable) one_cell meal_reliable
           meal_reliable None).
  - discriminate.
  - reflexivity.
  - reflexivity.
Defined.

Lemma meal_store_never_fails : never_fails (W := meal_store).
Proof. intros st p. reflexivity. Qed.

Lemma WriteMeals_no_loss_witness :
  exists s' w' flushed,
    WriteMeals quarter_meals [m0200; m0500] quarter_cell
      = Done ((Some s', None), w') /\
    calls w' = calls quarter_cell ++ map CallWriteMealBatch flushed /\
    concat flushed ++ rev (head s') = rev (head quarter_meals) ++ [m0200; m0500] /\
    Forall (fun batch => batch <> []) flushed.
Proof.
  apply (WriteMeals_no_loss quarter_meals [m0200; m0500] quarter_cell).
  - exact meal_store_never_fails.
  - vm_compute. constructor.
Defined.

Lemma WriteMeals_one_window_witness :
  exists s' w',
    WriteMeals fresh_meals [m0015; m0200; m0500] no_cell
      = Done ((Some s', None), w') /\
    calls w' = calls no_cell /\
    rev (head s') = [m0015; m0200; m0500] /\
    ([m0015; m0200; m0500] <> [] ->
     exists a, tailVal s' = Some a /\ cells w' !! a = last [m0015; m0200; m0500]).
Proof.
  apply (WriteMeals_one_window fresh_meals [m0015; m0200; m0500] no_cell).
  - reflexivity.
  - reflexivity.
Defined.

Lemma WriteMeals_at_most_one_batch_witness :
  exists r w',
    WriteMeals quarter_meals [m0200; m0500] quarter_cell = Done (r, w') /\
    (calls w' = calls quarter_cell \/
     exists batch, calls w' = calls quarter_cell ++ [CallWriteMealBatch batch]).
Proof.
  apply (WriteMeals_at_most_one_batch quarter_meals [m0200; m0500] quarter_cell).
  - reflexivity.
  - vm_compute. constructor.
Defined.

Lemma WriteMeals_failed_flush_witness :
  exists w',
    WriteMeals (two_meals meal_failing) ([] ++ m0100 :: [m0130]) one_cell
      = Done ((None, Some (ErrStore 1)), w') /\
    calls w' = calls one_cell
               ++ [CallWriteMealBatch (rev (head (two_meals meal_failing)) ++ [])] /\
    cells w' !! 0%nat = Some m0000.
Proof.
  apply (WriteMeals_failed_flush (two_meals meal_failing) [] m0100 [m0130]
           one_cell 0%nat m0000 meal_reliable (ErrStore 1)).
  - reflexivity.
  - reflexivity.
  - discriminate.
  - constructor.
  - vm_compute. discriminate.
  - reflexivity.
Defined.

Lemma WriteMeal_each_first_arrival_witness :
  exists s' w',
    WriteMeal_each (Some fresh_meals) meal_scenario no_cell
      = Done ((Some s', None), w') /\
    calls w' = calls no_cell ++ map CallWriteMealBatch [[m0000; m0030]] /\
    rev (head s') = [m0100; m0130] /\
    anchored s' w'.
Proof.
  apply (WriteMeal_each_first_arrival meal_scenario meal_store_never_fails
           fresh_meals no_cell [[m0000; m0030]] [m0100; m0130]).
  - vm_compute. split; [reflexivity|discriminate].
  - exact I.
  - vm_compute. reflexivity.
Defined.

End meal_more.
